(** * Figma-Context-MCP-AZTP: a shallow embedding of the bootstrap, the
    configuration loader and the two tool handlers.

    Sources embedded here:
    - [src/config.ts] : [getServerConfig], [maskApiKey];
    - [src/index.ts]  : the module-level credential checks and [startServer];
      and, from the server class [FigmaMcpServer] that follows them, the two
      handlers [registerTools] registers ([get_figma_data] and
      [download_figma_images]).

    Conventions.
    - A JavaScript string is a [string]; one [ascii] stands for one code unit
      below 256.  Text with larger code units is outside the model.
    - [process.env] is a finite map from names to strings ([gmap string string]);
      a variable that is not set is a failed lookup ([undefined] in the source).
    - Code that may throw returns a [Result]; the [try]/[catch] of a handler
      is [try_catch_logged], which also keeps the calls of the logger.
    - The packages the repository imports but does not contain (the secure
      transport client, the Figma service) are records of functions that the
      theorems quantify over. *)

From Stdlib Require Import String Ascii List ZArith QArith Qround Qpower Lia Bool DecimalString Permutation.
From stdpp Require Import base gmap strings.
Import ListNotations.

#[local] Arguments String.append !_ _ / : simpl nomatch.

(* ================================================================== *)
(** * JavaScript: thrown values, results, truthiness                   *)
(* ================================================================== *)

Module JS.

(** A thrown value: an [Error] object (with its [name] and [message]) or any
    other value, kept as the text [String(value)] yields. *)
Inductive Exn : Type :=
| ErrorObject (name message : string)
| ThrownValue (text : string).

(** [new Error(message)] *)
Definition Error (message : string) : Exn := ErrorObject "Error" message.

(** [new TypeError(message)], raised by the runtime itself. *)
Definition TypeError (message : string) : Exn := ErrorObject "TypeError" message.

(** The [message] property of an error object (for another thrown value, its
    text). *)
Definition message_of (e : Exn) : string :=
  match e with
  | ErrorObject _ m => m
  | ThrownValue t => t
  end.

(** What a template literal makes of a thrown value: [Error.prototype.toString]
    for an error object. *)
Definition ToString_exn (e : Exn) : string :=
  match e with
  | ErrorObject name msg =>
      if String.eqb name "" then msg
      else if String.eqb msg "" then name
      else name +:+ ": " +:+ msg
  | ThrownValue t => t
  end.

(** Normal completion or an exception. *)
Inductive Result (A : Type) : Type :=
| Ok (a : A)
| Throw (e : Exn).
Arguments Ok {A} a.
Arguments Throw {A} e.

Definition bind {A B : Type} (r : Result A) (k : A -> Result B) : Result B :=
  match r with
  | Ok a => k a
  | Throw e => Throw e
  end.

(** [ToBoolean] on a string: only the empty string is falsy. *)
Definition truthy_string (s : string) : bool := negb (String.eqb s "").

(** [ToBoolean] on [string | undefined]. *)
Definition truthy (x : option string) : bool :=
  match x with
  | Some s => truthy_string s
  | None => false
  end.

(** [x || d] on [string | undefined]. *)
Definition or_default (x : option string) (d : string) : string :=
  match x with
  | Some s => if truthy_string s then s else d
  | None => d
  end.

(** ** Numbers

    A finite number is kept as a sign and the magnitude of the double, a
    rational in lowest terms ([Qred]), so that two equal numbers are the
    same term.  The value of a numeric literal is rounded to the nearest
    double by [RoundMVResult] below. *)
Inductive number : Type :=
| NaN
| Infinity (negative : bool)
| Finite (negative : bool) (magnitude : Q).

Definition of_N (n : N) : number := Finite false (Qred (inject_Z (Z.of_N n))).

(** [ToBoolean] on a number: [NaN], [+0] and [-0] are falsy. *)
Definition truthy_number (n : number) : bool :=
  match n with
  | NaN => false
  | Infinity _ => true
  | Finite _ q => negb (Qeq_bool q 0)
  end.

(** [a || b] on numbers. *)
Definition or_number (a b : number) : number :=
  if truthy_number a then a else b.

(** [StrWhiteSpaceChar]: TAB, LF, VT, FF, CR, SP and NBSP. *)
Definition is_StrWhiteSpaceChar (c : ascii) : bool :=
  match nat_of_ascii c with
  | 9 | 10 | 11 | 12 | 13 | 32 | 160 => true
  | _ => false
  end.

Fixpoint trim_start (s : string) : string :=
  match s with
  | String c r => if is_StrWhiteSpaceChar c then trim_start r else s
  | EmptyString => EmptyString
  end.

Definition trim (s : string) : string :=
  String.rev (trim_start (String.rev (trim_start s))).

(** The value of a digit in the given radix (2, 8, 10 or 16). *)
Definition digit_value (radix : N) (c : ascii) : option N :=
  let n := N_of_ascii c in
  let v :=
    if (48 <=? n)%N && (n <=? 57)%N then Some (n - 48)%N
    else if (97 <=? n)%N && (n <=? 102)%N then Some (n - 87)%N
    else if (65 <=? n)%N && (n <=? 70)%N then Some (n - 55)%N
    else None in
  match v with
  | Some d => if (d <? radix)%N then Some d else None
  | None => None
  end.

(** The longest run of digits at the head of [s]: its value, its length and
    what follows it. *)
Fixpoint digits_acc (radix : N) (s : string) (acc : N) (n : nat)
  : N * nat * string :=
  match s with
  | String c r =>
      match digit_value radix c with
      | Some d => digits_acc radix r (radix * acc + d)%N (S n)
      | None => (acc, n, s)
      end
  | EmptyString => (acc, n, s)
  end.

Definition digits (radix : N) (s : string) : N * nat * string :=
  digits_acc radix s 0%N 0.

(** A string that is digits of the radix throughout, at least one. *)
Definition all_digits (radix : N) (s : string) : option N :=
  match digits radix s with
  | (v, S _, EmptyString) => Some v
  | _ => None
  end.

(** [NonDecimalIntegerLiteral]: [0x], [0o] and [0b] literals, unsigned. *)
Definition NonDecimalIntegerLiteral (s : string) : option N :=
  match s with
  | String "0" (String c r) =>
      if Ascii.eqb c "x" || Ascii.eqb c "X" then all_digits 16 r
      else if Ascii.eqb c "o" || Ascii.eqb c "O" then all_digits 8 r
      else if Ascii.eqb c "b" || Ascii.eqb c "B" then all_digits 2 r
      else None
  | _ => None
  end.

(** An optional sign: whether it is a minus, and what follows it. *)
Definition sign (s : string) : bool * string :=
  match s with
  | String "-" r => (true, r)
  | String "+" r => (false, r)
  | _ => (false, s)
  end.

(** [ExponentPart], optional, up to the end of the string: the exponent. *)
Definition ExponentPart_opt (s : string) : option Z :=
  match s with
  | EmptyString => Some 0%Z
  | String c r =>
      if Ascii.eqb c "e" || Ascii.eqb c "E" then
        let (neg, r') := sign r in
        match all_digits 10 r' with
        | Some v => Some (if neg then (- Z.of_N v)%Z else Z.of_N v)
        | None => None
        end
      else None
  end.

Definition ten : Q := inject_Z 10.

(** [StrUnsignedDecimalLiteral] other than [Infinity]: its mathematical
    value. *)
Definition StrUnsignedDecimalLiteral (s : string) : option Q :=
  let '(ip, ni, r1) := digits 10 s in
  match r1 with
  | String "." r2 =>
      let '(fp, nf, r3) := digits 10 r2 in
      if Nat.eqb ni 0 && Nat.eqb nf 0 then None
      else
        match ExponentPart_opt r3 with
        | Some e =>
            Some ((inject_Z (Z.of_N ip)
                   + inject_Z (Z.of_N fp) / Qpower ten (Z.of_nat nf))
                  * Qpower ten e)%Q
        | None => None
        end
  | _ =>
      if Nat.eqb ni 0 then None
      else
        match ExponentPart_opt r1 with
        | Some e => Some (inject_Z (Z.of_N ip) * Qpower ten e)%Q
        | None => None
        end
  end.

(** *** Rounding to a double

    [Number] gives the double nearest to the mathematical value of the
    literal, the one with the even significand when two are as near: a
    double has 53 significant bits, the smallest positive one is 2^-1074, a
    value that rounds to 2^1024 or more is [Infinity], and one that rounds
    to nothing is zero. *)

Definition pow2 (k : Z) : Q := Qpower (inject_Z 2) k.

(** The [e] with [2^e <= q < 2^(e+1)], for a positive [q]: the difference of
    the bit lengths of numerator and denominator, or one less. *)
Definition floor_log2 (q : Q) : Z :=
  let e := (Z.log2 (Qnum q) - Z.log2 (Zpos (Qden q)))%Z in
  if Qle_bool (pow2 e) q then e else (e - 1)%Z.

(** The nearest integer, the even one of two that are as near. *)
Definition round_half_even (q : Q) : Z :=
  let fl := Qfloor q in
  match Qcompare (q - inject_Z fl) (1 # 2) with
  | Lt => fl
  | Gt => (fl + 1)%Z
  | Eq => if Z.even fl then fl else (fl + 1)%Z
  end.

(** The number for a sign and a magnitude [q >= 0]: [q] is rounded to a
    multiple of [2^u], where [u] leaves 53 significant bits and is not below
    -1074. *)
Definition RoundMVResult (negative : bool) (q : Q) : number :=
  if Qeq_bool q 0 then Finite negative 0
  else
    let e := floor_log2 q in
    let u := Z.max (e - 52) (-1074) in
    let v := (inject_Z (round_half_even (q / pow2 u)) * pow2 u)%Q in
    if Qle_bool (pow2 1024) v then Infinity negative
    else Finite negative (Qred v).

(** [StringToNumber]: white space is trimmed, the empty string is [+0],
    anything that is no [StrNumericLiteral] is [NaN], and the value of a
    literal is rounded to a double. *)
Definition StringToNumber (s : string) : number :=
  let t := trim s in
  if String.eqb t "" then Finite false 0
  else
    match NonDecimalIntegerLiteral t with
    | Some n => RoundMVResult false (inject_Z (Z.of_N n))
    | None =>
        let (neg, u) := sign t in
        if String.eqb u "Infinity" then Infinity neg
        else
          match StrUnsignedDecimalLiteral u with
          | Some q => RoundMVResult neg q
          | None => NaN
          end
    end.

(** [Number(x)] for [x : string | undefined]; [Number(undefined)] is [NaN]. *)
Definition Number (x : option string) : number :=
  match x with
  | Some s => StringToNumber s
  | None => NaN
  end.

(** A string denotes a positive number when [Number] makes a finite or
    infinite number above zero of it. *)
Definition is_positive_number (s : string) : bool :=
  match StringToNumber s with
  | NaN => false
  | Infinity neg => negb neg
  | Finite neg q => negb neg && negb (Qeq_bool q 0)
  end.

(** Every character of [s] passes the test [p]. *)
Fixpoint all_chars (p : ascii -> bool) (s : string) : bool :=
  match s with
  | String c r => p c && all_chars p r
  | EmptyString => true
  end.

(** A decimal digit. *)
Definition is_decimal_digit (c : ascii) : bool :=
  match digit_value 10 c with
  | Some _ => true
  | None => false
  end.

End JS.

(* ================================================================== *)
(** * src/config.ts                                                    *)
(* ================================================================== *)

Module Config.
Import JS.

Record ServerConfig : Type := {
  figmaApiKey : string;
  port : number
}.

(** The last [n] code units of [s] ([s.slice(-n)]). *)
Definition slice_last (n : nat) (s : string) : string :=
  String.substring (String.length s - n) n s.

Definition maskApiKey (key : string) : string :=
  if Nat.leb (String.length key) 4 then "****"
  else "****" +:+ slice_last 4 key.

(** [getServerConfig(isStdioMode)], reading [process.env] from [env]. *)
Definition getServerConfig (env : gmap string string) (isStdioMode : bool)
  : Result ServerConfig :=
  let figmaApiKey := env !! "FIGMA_API_KEY" in
  if negb (truthy figmaApiKey) then Throw (Error "FIGMA_API_KEY is not set")
  else
    let port :=
      if isStdioMode then of_N 0
      else or_number (Number (env !! "PORT")) (of_N 3000) in
    Ok {| figmaApiKey := default "" figmaApiKey; port := port |}.

(** An environment with the Figma credential and nothing else. *)
Definition env_key : gmap string string := {[ "FIGMA_API_KEY" := "figd_0123" ]}.

End Config.

(* ================================================================== *)
(** * src/index.ts                                                     *)
(* ================================================================== *)

Module Index.
Import JS.

(** The options [startServer] passes to [client.secureConnect]. *)
Record ConnectOptions : Type := {
  trustDomain : string;
  hostname : string;
  environment : string
}.

(** The secure-transport package ([aztp-client]), which the repository
    imports: what [initialize] and [secureConnect] do is not its code. *)
Record AztpClient : Type := {
  initialize : string -> string -> Result unit;
  secureConnect : string -> ConnectOptions -> Result unit
}.

(** What the process does that can be seen from outside, in order. *)
Inductive Effect : Type :=
| Initialize (apiKey name : string)
| NewStdioServerTransport
| SecureConnect (name : string) (options : ConnectOptions)
| ConsoleError (label : string) (error : Exn).

(** How an asynchronous function ends: its promise resolves, it rejects, or
    the function called [process.exit] and never returned. *)
Inductive Completion : Type :=
| Resolved
| Rejected (error : Exn)
| ProcessExit (code : Z).

(** How the process stands once the module has been evaluated. *)
Inductive Status : Type :=
| Serving
| Exited (code : Z)
| Uncaught (error : Exn).

Record Run : Type := {
  effects : list Effect;
  status : Status
}.

(** The exit status of the process: an uncaught exception ends a Node
    process with status 1; a serving process has not exited. *)
Definition exit_status (r : Run) : option Z :=
  match status r with
  | Serving => None
  | Exited code => Some code
  | Uncaught _ => Some 1%Z
  end.

Definition is_channel_effect (e : Effect) : bool :=
  match e with
  | NewStdioServerTransport | SecureConnect _ _ => true
  | _ => false
  end.

(** Whether a channel (the stdio transport) was created or connected. *)
Definition channel_opened (r : Run) : bool :=
  existsb is_channel_effect (effects r).

(** [process.env.SERVER_MODE || "stdio"] *)
Definition serverMode (env : gmap string string) : string :=
  or_default (env !! "SERVER_MODE") "stdio".

(** The [switch] of [startServer], inside its [try]: the effects it has and
    how it completes. *)
Definition startServer_switch (env : gmap string string) (client : AztpClient)
    (mcpName : string) : list Effect * Result unit :=
  let mode := serverMode env in
  if String.eqb mode "stdio" then
    let options := {|
      trustDomain := "gptapps.ai";
      hostname := or_default (env !! "HOSTNAME") "unknown";
      environment := or_default (env !! "NODE_ENV") "development" |} in
    ([NewStdioServerTransport; SecureConnect mcpName options],
     secureConnect client mcpName options)
  else if String.eqb mode "http" then
    ([], Throw (Error "HTTP server mode not yet implemented"))
  else
    ([], Throw (Error ("Unsupported server mode: " +:+ mode))).

(** [startServer()]: the [catch] logs the error and exits with status 1. *)
Definition startServer (env : gmap string string) (client : AztpClient)
    (mcpName : string) : list Effect * Completion :=
  match startServer_switch env client mcpName with
  | (effs, Ok _) => (effs, Resolved)
  | (effs, Throw error) =>
      (effs ++ [ConsoleError "Failed to start server:" error], ProcessExit 1)
  end.

(** The module body of [index.ts], after [dotenv] has filled [process.env]:
    the two credential checks, the client, and
    [startServer().catch(...)]. *)
Definition main (env : gmap string string) (client : AztpClient) : Run :=
  if negb (truthy (env !! "AZTP_API_KEY")) then
    {| effects := [];
       status := Uncaught (Error "AZTP_API_KEY environment variable is not set") |}
  else if negb (truthy (env !! "MCP_NAME")) then
    {| effects := [];
       status := Uncaught (Error "MCP_NAME environment variable is not set") |}
  else
    let apiKey := default "" (env !! "AZTP_API_KEY") in
    let mcpName := default "" (env !! "MCP_NAME") in
    match initialize client apiKey mcpName with
    | Throw error =>
        {| effects := [Initialize apiKey mcpName]; status := Uncaught error |}
    | Ok _ =>
        match startServer env client mcpName with
        | (effs, Resolved) =>
            {| effects := Initialize apiKey mcpName :: effs; status := Serving |}
        | (effs, ProcessExit code) =>
            {| effects := Initialize apiKey mcpName :: effs;
               status := Exited code |}
        | (effs, Rejected error) =>
            {| effects := Initialize apiKey mcpName :: effs
                          ++ [ConsoleError "Failed to start server:" error];
               status := Exited 1 |}
        end
    end.

(** The message [startServer] fails with in a mode other than stdio. *)
Definition mode_error (mode : string) : Exn :=
  if String.eqb mode "http" then Error "HTTP server mode not yet implemented"
  else Error ("Unsupported server mode: " +:+ mode).

(** A client whose calls all succeed. *)
Definition willing_client : AztpClient :=
  {| initialize := fun _ _ => Ok tt; secureConnect := fun _ _ => Ok tt |}.

(** The two credentials of the module and a server mode. *)
Definition env_mode (mode : string) : gmap string string :=
  <["SERVER_MODE" := mode]>
    (<["AZTP_API_KEY" := "aztp_key"]> {[ "MCP_NAME" := "figma-mcp" ]}).

(** An environment with the two credentials of the module and no
    FIGMA_API_KEY. *)
Definition env_no_figma_key : gmap string string :=
  <["AZTP_API_KEY" := "aztp_key"]> {[ "MCP_NAME" := "figma-mcp" ]}.

(** The options of the stdio connection, as [startServer] builds them. *)
Definition stdio_options (env : gmap string string) : ConnectOptions :=
  {| trustDomain := "gptapps.ai";
     hostname := or_default (env !! "HOSTNAME") "unknown";
     environment := or_default (env !! "NODE_ENV") "development" |}.

(** A client that is initialised and then refuses the connection. *)
Definition refusing_client : AztpClient :=
  {| initialize := fun _ _ => Ok tt;
     secureConnect := fun _ _ => Throw (Error "identity verification failed") |}.

(** A client that cannot even be initialised. *)
Definition broken_client : AztpClient :=
  {| initialize := fun _ _ => Throw (Error "invalid API key");
     secureConnect := fun _ _ => Ok tt |}.

End Index.

(* ================================================================== *)
(** * JSON values, [JSON.stringify(value, null, 2)] and [JSON.parse]   *)
(* ================================================================== *)

Module Json.

(** A JSON value as [JSON.parse] yields it and [JSON.stringify] prints it.
    - A number is kept as the text [Number::toString] prints for it: that
      text determines the number and the number determines it, and both
      serialisations of the handler print a number through the same
      conversion.
    - An object is the list of its own enumerable properties in enumeration
      order; the keys of a JavaScript object are pairwise different. *)
#[local] Unset Elimination Schemes.
Inductive json : Type :=
| JNull
| JBool (b : bool)
| JNumber (literal : string)
| JString (s : string)
| JArray (elements : list json)
| JObject (members : list (string * json)).
#[local] Set Elimination Schemes.

Definition dquote : ascii := "034"%char.
Definition backslash : ascii := "092"%char.
Definition newline : string := String "010"%char EmptyString.

(** ** Printing *)

Definition hex_digit (n : nat) : ascii :=
  match n with
  | 0 => "0" | 1 => "1" | 2 => "2" | 3 => "3" | 4 => "4" | 5 => "5"
  | 6 => "6" | 7 => "7" | 8 => "8" | 9 => "9" | 10 => "a" | 11 => "b"
  | 12 => "c" | 13 => "d" | 14 => "e" | _ => "f"
  end%char.

(** One code unit inside [QuoteJSONString]. *)
Definition escape_char (c : ascii) : string :=
  let n := nat_of_ascii c in
  match n with
  | 8 => "\b"
  | 9 => "\t"
  | 10 => "\n"
  | 12 => "\f"
  | 13 => "\r"
  | 34 => String backslash (String dquote EmptyString)
  | 92 => "\\"
  | _ =>
      if Nat.ltb n 32 then
        "\u00" +:+ String (hex_digit (n / 16)) (String (hex_digit (n mod 16)) EmptyString)
      else String c EmptyString
  end.

Fixpoint escape (s : string) : string :=
  match s with
  | EmptyString => EmptyString
  | String c r => escape_char c +:+ escape r
  end.

Definition QuoteJSONString (s : string) : string :=
  String dquote (escape s +:+ String dquote EmptyString).

(** The [gap] of [JSON.stringify(value, null, 2)]: two spaces. *)
Definition gap : string := "  ".

(** [SerializeJSONProperty] with the gap above, at the current [indent];
    arrays and objects as [SerializeJSONArray] and [SerializeJSONObject]
    lay them out. *)
Fixpoint SerializeJSONProperty (indent : string) (v : json) : string :=
  match v with
  | JNull => "null"
  | JBool b => if b then "true" else "false"
  | JNumber literal => literal
  | JString s => QuoteJSONString s
  | JArray elements =>
      let stepback := indent in
      let indent := indent +:+ gap in
      let partial := map (SerializeJSONProperty indent) elements in
      match partial with
      | [] => "[]"
      | _ =>
          let separator := "," +:+ newline +:+ indent in
          "[" +:+ newline +:+ indent +:+ String.concat separator partial
              +:+ newline +:+ stepback +:+ "]"
      end
  | JObject members =>
      let stepback := indent in
      let indent := indent +:+ gap in
      let partial :=
        map (fun m => QuoteJSONString (fst m) +:+ ": "
                      +:+ SerializeJSONProperty indent (snd m)) members in
      match partial with
      | [] => "{}"
      | _ =>
          let separator := "," +:+ newline +:+ indent in
          "{" +:+ newline +:+ indent +:+ String.concat separator partial
              +:+ newline +:+ stepback +:+ "}"
      end
  end.

(** [JSON.stringify(v, null, 2)] *)
Definition stringify (v : json) : string := SerializeJSONProperty "" v.

(** ** Parsing *)

(** JSON white space: TAB, LF, CR and SP. *)
Definition is_ws (c : ascii) : bool :=
  match nat_of_ascii c with
  | 9 | 10 | 13 | 32 => true
  | _ => false
  end.

Fixpoint skip_ws (s : string) : string :=
  match s with
  | String c r => if is_ws c then skip_ws r else s
  | EmptyString => EmptyString
  end.

(** [s] without the prefix [p], when it has it. *)
Fixpoint strip_prefix (p s : string) : option string :=
  match p with
  | EmptyString => Some s
  | String a p' =>
      match s with
      | String b s' => if Ascii.eqb a b then strip_prefix p' s' else None
      | EmptyString => None
      end
  end.

(** The character a one-letter escape stands for. *)
Definition unescape (e : ascii) : option ascii :=
  if Ascii.eqb e dquote then Some dquote
  else if Ascii.eqb e backslash then Some backslash
  else if Ascii.eqb e "/" then Some "/"%char
  else if Ascii.eqb e "b" then Some "008"%char
  else if Ascii.eqb e "f" then Some "012"%char
  else if Ascii.eqb e "n" then Some "010"%char
  else if Ascii.eqb e "r" then Some "013"%char
  else if Ascii.eqb e "t" then Some "009"%char
  else None.

(** The code unit a four-digit hexadecimal escape stands for, when it is
    below 256. *)
Definition hex4 (a b c d : ascii) : option ascii :=
  match JS.digit_value 16 a, JS.digit_value 16 b,
        JS.digit_value 16 c, JS.digit_value 16 d with
  | Some x, Some y, Some z, Some w =>
      let n := (((x * 16 + y) * 16 + z) * 16 + w)%N in
      if (n <? 256)%N then Some (ascii_of_N n) else None
  | _, _, _, _ => None
  end.

Definition cons_char (c : ascii) (r : option (string * string))
  : option (string * string) :=
  match r with
  | Some (s, rest) => Some (String c s, rest)
  | None => None
  end.

(** The characters of a string literal after its opening quote, up to the
    closing quote: the string and what follows the literal. *)
Fixpoint parse_chars (s : string) : option (string * string) :=
  match s with
  | EmptyString => None
  | String c r =>
      if Ascii.eqb c dquote then Some (EmptyString, r)
      else if Ascii.eqb c backslash then
        match r with
        | String e r1 =>
            if Ascii.eqb e "u" then
              match r1 with
              | String a (String b (String c' (String d r2))) =>
                  match hex4 a b c' d with
                  | Some u => cons_char u (parse_chars r2)
                  | None => None
                  end
              | _ => None
              end
            else
              match unescape e with
              | Some u => cons_char u (parse_chars r1)
              | None => None
              end
        | EmptyString => None
        end
      else if Nat.ltb (nat_of_ascii c) 32 then None
      else cons_char c (parse_chars r)
  end.

(** The JSON number grammar as an automaton. *)
Inductive NumState : Type :=
| NStart | NMinus | NZero | NInt | NDot | NFrac | NExp | NExpSign | NExpDigits.

Definition is_digit (c : ascii) : bool :=
  let n := nat_of_ascii c in Nat.leb 48 n && Nat.leb n 57.

Definition is_e (c : ascii) : bool := Ascii.eqb c "e" || Ascii.eqb c "E".

Definition num_step (q : NumState) (c : ascii) : option NumState :=
  match q with
  | NStart =>
      if Ascii.eqb c "-" then Some NMinus
      else if Ascii.eqb c "0" then Some NZero
      else if is_digit c then Some NInt else None
  | NMinus =>
      if Ascii.eqb c "0" then Some NZero
      else if is_digit c then Some NInt else None
  | NZero =>
      if Ascii.eqb c "." then Some NDot
      else if is_e c then Some NExp else None
  | NInt =>
      if is_digit c then Some NInt
      else if Ascii.eqb c "." then Some NDot
      else if is_e c then Some NExp else None
  | NDot => if is_digit c then Some NFrac else None
  | NFrac =>
      if is_digit c then Some NFrac
      else if is_e c then Some NExp else None
  | NExp =>
      if Ascii.eqb c "+" || Ascii.eqb c "-" then Some NExpSign
      else if is_digit c then Some NExpDigits else None
  | NExpSign => if is_digit c then Some NExpDigits else None
  | NExpDigits => if is_digit c then Some NExpDigits else None
  end.

Definition accepting (q : NumState) : bool :=
  match q with
  | NZero | NInt | NFrac | NExpDigits => true
  | _ => false
  end.

(** The longest number token at the head of [s], from state [q]. *)
Fixpoint scan_number (q : NumState) (s : string) : option (string * string) :=
  match s with
  | String c r =>
      match num_step q c with
      | Some q' => cons_char c (scan_number q' r)
      | None => if accepting q then Some (EmptyString, s) else None
      end
  | EmptyString => if accepting q then Some (EmptyString, EmptyString) else None
  end.

(** A JSON number token, the whole of it. *)
Definition is_number_literal (s : string) : bool :=
  match scan_number NStart s with
  | Some (_, EmptyString) => true
  | _ => false
  end.

(** [CreateDataProperty] on a property list: a key that is there already
    keeps its place and takes the new value. *)
Fixpoint set_property (k : string) (v : json) (o : list (string * json))
  : list (string * json) :=
  match o with
  | [] => [(k, v)]
  | (k', v') :: o' =>
      if String.eqb k k' then (k, v) :: o'
      else (k', v') :: set_property k v o'
  end.

(** The object a sequence of parsed members makes: of two members with one
    key the later wins. *)
Definition object_of_members (ms : list (string * json))
  : list (string * json) :=
  fold_left (fun o m => set_property (fst m) (snd m) o) ms [].

(** Recursive descent over the JSON grammar.  [fuel] bounds the nesting and
    the number of elements; [parse] below gives enough of it. *)
Fixpoint parse_value (fuel : nat) (s : string) : option (json * string) :=
  match fuel with
  | O => None
  | S fuel =>
      match skip_ws s with
      | EmptyString => None
      | String c r =>
          if Ascii.eqb c "[" then
            match strip_prefix "]" (skip_ws r) with
            | Some r' => Some (JArray [], r')
            | None =>
                match parse_elements fuel r with
                | Some (vs, r') => Some (JArray vs, r')
                | None => None
                end
            end
          else if Ascii.eqb c "{" then
            match strip_prefix "}" (skip_ws r) with
            | Some r' => Some (JObject [], r')
            | None =>
                match parse_members fuel r with
                | Some (ms, r') => Some (JObject (object_of_members ms), r')
                | None => None
                end
            end
          else if Ascii.eqb c dquote then
            match parse_chars r with
            | Some (str, r') => Some (JString str, r')
            | None => None
            end
          else
            match strip_prefix "true" (String c r) with
            | Some r' => Some (JBool true, r')
            | None =>
            match strip_prefix "false" (String c r) with
            | Some r' => Some (JBool false, r')
            | None =>
            match strip_prefix "null" (String c r) with
            | Some r' => Some (JNull, r')
            | None =>
            match scan_number NStart (String c r) with
            | Some (lit, r') => Some (JNumber lit, r')
            | None => None
            end end end end
      end
  end
with parse_elements (fuel : nat) (s : string) : option (list json * string) :=
  match fuel with
  | O => None
  | S fuel =>
      match parse_value fuel s with
      | Some (v, r) =>
          match skip_ws r with
          | String c r' =>
              if Ascii.eqb c "," then
                match parse_elements fuel r' with
                | Some (vs, r'') => Some (v :: vs, r'')
                | None => None
                end
              else if Ascii.eqb c "]" then Some ([v], r')
              else None
          | EmptyString => None
          end
      | None => None
      end
  end
with parse_members (fuel : nat) (s : string)
  : option (list (string * json) * string) :=
  match fuel with
  | O => None
  | S fuel =>
      match strip_prefix (String dquote EmptyString) (skip_ws s) with
      | Some r =>
          match parse_chars r with
          | Some (k, r1) =>
              match strip_prefix ":" (skip_ws r1) with
              | Some r2 =>
                  match parse_value fuel r2 with
                  | Some (v, r3) =>
                      match skip_ws r3 with
                      | String c r4 =>
                          if Ascii.eqb c "," then
                            match parse_members fuel r4 with
                            | Some (ms, r5) => Some ((k, v) :: ms, r5)
                            | None => None
                            end
                          else if Ascii.eqb c "}" then Some ([(k, v)], r4)
                          else None
                      | EmptyString => None
                      end
                  | None => None
                  end
              | None => None
              end
          | None => None
          end
      | None => None
      end
  end.

(** [JSON.parse(text)]: one value, then nothing but white space.  [None]
    stands for the [SyntaxError]. *)
Definition parse (text : string) : option json :=
  match parse_value (S (String.length text)) text with
  | Some (v, rest) =>
      if String.eqb (skip_ws rest) "" then Some v else None
  | None => None
  end.

(** The property [k] of an object ([undefined] is [None]). *)
Fixpoint get_property (k : string) (o : list (string * json)) : option json :=
  match o with
  | [] => None
  | (k', v) :: o' => if String.eqb k k' then Some v else get_property k o'
  end.

(** The rest of an object in a destructuring pattern that names [names]:
    the properties with other keys, in order. *)
Definition rest_properties (names : list string) (o : list (string * json))
  : list (string * json) :=
  List.filter (fun m => negb (existsb (String.eqb (fst m)) names)) o.

(** The keys of every object of the value are pairwise different, as they
    are in a JavaScript object, and every number is a number token. *)
Fixpoint well_formed (v : json) : Prop :=
  match v with
  | JNull | JBool _ | JString _ => True
  | JNumber literal => is_number_literal literal = true
  | JArray elements =>
      (fix all (l : list json) : Prop :=
         match l with
         | [] => True
         | x :: l' => well_formed x /\ all l'
         end) elements
  | JObject members =>
      List.NoDup (map fst members) /\
      (fix all (l : list (string * json)) : Prop :=
         match l with
         | [] => True
         | m :: l' => well_formed (snd m) /\ all l'
         end) members
  end.

(** ** What the round trip is stated with *)

(** A string of JSON white space. *)
Fixpoint all_ws (s : string) : bool :=
  match s with
  | String c r => is_ws c && all_ws r
  | EmptyString => true
  end.

(** A character that can stand inside a number token. *)
Definition is_number_char (c : ascii) : bool :=
  is_digit c || is_e c || Ascii.eqb c "." || Ascii.eqb c "+" || Ascii.eqb c "-".

(** A text before which a token ends: the empty text, or one that starts with
    a character no number goes on with. *)
Definition ends_token (rest : string) : bool :=
  match rest with
  | String c _ => negb (is_number_char c)
  | EmptyString => true
  end.

(** The first character of a number token is a minus or a digit. *)
Definition starts_number (c : ascii) : bool := Ascii.eqb c "-" || is_digit c.

(** The fuel [parse_value] needs to read a value back. *)
Fixpoint need (v : json) : nat :=
  match v with
  | JArray elements => S (fold_right (fun e n => S (need e + n)) 0 elements)
  | JObject members => S (fold_right (fun m n => S (need (snd m) + n)) 0 members)
  | _ => 1
  end.

Definition need_elements (l : list json) : nat :=
  fold_right (fun e n => S (need e + n)) 0 l.

Definition need_members (l : list (string * json)) : nat :=
  fold_right (fun m n => S (need (snd m) + n)) 0 l.

(** One member as [SerializeJSONObject] prints it. *)
Definition member_text (indent : string) (m : string * json) : string :=
  QuoteJSONString (fst m) +:+ ": " +:+ SerializeJSONProperty indent (snd m).

(** Induction on a value, with the property at hand for every element of an
    array and every member of an object. *)
Section JsonInduction.
Variable P : json -> Prop.
Hypothesis HNull : P JNull.
Hypothesis HBool : forall b, P (JBool b).
Hypothesis HNumber : forall literal, P (JNumber literal).
Hypothesis HString : forall s, P (JString s).
Hypothesis HArray : forall elements, Forall P elements -> P (JArray elements).
Hypothesis HObject :
  forall members, Forall (fun m => P (snd m)) members -> P (JObject members).

Fixpoint json_induction (v : json) : P v :=
  match v with
  | JNull => HNull
  | JBool b => HBool b
  | JNumber literal => HNumber literal
  | JString s => HString s
  | JArray elements =>
      HArray elements
        ((fix all (l : list json) : Forall P l :=
            match l with
            | [] => List.Forall_nil P
            | x :: l' => List.Forall_cons P x l' (json_induction x) (all l')
            end) elements)
  | JObject members =>
      HObject members
        ((fix all (l : list (string * json)) : Forall (fun m => P (snd m)) l :=
            match l with
            | [] => List.Forall_nil _
            | m :: l' => List.Forall_cons _ m l' (json_induction (snd m)) (all l')
            end) members)
  end.
End JsonInduction.

(** What the round trip says of one value: printed at any indentation, after
    any white space and before a text that ends the token, it is read back. *)
Definition parses (v : json) : Prop :=
  forall fuel indent w rest,
    need v <= fuel ->
    all_ws indent = true ->
    all_ws w = true ->
    ends_token rest = true ->
    parse_value fuel (w +:+ SerializeJSONProperty indent v +:+ rest) = Some (v, rest).

(** The printed value starts with a character that is no white space and no
    closing bracket. *)
Definition head_ok (s : string) : Prop :=
  exists c r, s = String c r /\ is_ws c = false /\ Ascii.eqb "]" c = false.

(** [well_formed] as a test. *)
Fixpoint distinct (l : list string) : bool :=
  match l with
  | [] => true
  | k :: l' => negb (existsb (String.eqb k) l') && distinct l'
  end.

Fixpoint well_formedb (v : json) : bool :=
  match v with
  | JNull | JBool _ | JString _ => true
  | JNumber literal => is_number_literal literal
  | JArray elements => forallb well_formedb elements
  | JObject members =>
      distinct (map fst members)
      && forallb (fun m => well_formedb (snd m)) members
  end.

End Json.

(* ================================================================== *)
(** * src/server.ts: the tool handlers                                 *)
(* ================================================================== *)

Module Server.
Import JS Json.

(** ** Values, promises and the logger *)

(** What one download settles to: a path, or a value that says it failed. *)
Inductive Value : Type :=
| VUndefined
| VNull
| VBool (b : bool)
| VString (s : string).

Definition ToBoolean (v : Value) : bool :=
  match v with
  | VUndefined | VNull => false
  | VBool b => b
  | VString s => truthy_string s
  end.

(** One element as [Array.prototype.join] prints it: nothing for
    [undefined] and [null]. *)
Definition join_item (v : Value) : string :=
  match v with
  | VUndefined | VNull => ""
  | VBool b => if b then "true" else "false"
  | VString s => s
  end.

(** [array.join(separator)] *)
Definition join (separator : string) (array : list Value) : string :=
  String.concat separator (map join_item array).

(** [array.find(predicate)]: the first element the predicate holds of, or
    [undefined]. *)
Definition find (predicate : Value -> bool) (array : list Value) : Value :=
  match List.find predicate array with
  | Some v => v
  | None => VUndefined
  end.

(** [String(n)] for an array length. *)
Definition length_to_string (n : nat) : string :=
  NilEmpty.string_of_uint (Nat.to_uint n).

(** [s.endsWith(searchString)] *)
Definition endsWith (s searchString : string) : bool :=
  let len := String.length s in
  let searchLength := String.length searchString in
  if Nat.ltb len searchLength then false
  else String.eqb (String.substring (len - searchLength) searchLength s)
                  searchString.

(** A settled promise: how it settled, and when (what [Promise.all] reports
    of two rejections is the earlier one). *)
Record Promise (A : Type) : Type := {
  settled_at : nat;
  outcome : Result A
}.
Arguments settled_at {A} p.
Arguments outcome {A} p.

(** [await Promise.all([p, q])] *)
Definition all2 {A B : Type} (p : Promise A) (q : Promise B) : Result (A * B) :=
  match outcome p, outcome q with
  | Ok a, Ok b => Ok (a, b)
  | Throw e, Ok _ => Throw e
  | Ok _, Throw e => Throw e
  | Throw e1, Throw e2 =>
      if Nat.ltb (settled_at q) (settled_at p) then Throw e2 else Throw e1
  end.

(** [Promise.all([p, q])] as a promise: it resolves once both have resolved,
    so when the later of the two does, and it is rejected as soon as one of
    them is, with the reason of the earlier rejection, whether or not the
    other has settled by then. *)
Definition Promise_all2 {A B : Type} (p : Promise A) (q : Promise B)
  : Promise (A * B) :=
  match outcome p, outcome q with
  | Ok a, Ok b =>
      {| settled_at := Nat.max (settled_at p) (settled_at q);
         outcome := Ok (a, b) |}
  | Throw e, Ok _ => {| settled_at := settled_at p; outcome := Throw e |}
  | Ok _, Throw e => {| settled_at := settled_at q; outcome := Throw e |}
  | Throw e1, Throw e2 =>
      if Nat.ltb (settled_at q) (settled_at p)
      then {| settled_at := settled_at q; outcome := Throw e2 |}
      else {| settled_at := settled_at p; outcome := Throw e1 |}
  end.

(** [p.then(f)] for an [f] that does not throw. *)
Definition then_ {A B : Type} (p : Promise A) (f : A -> B) : Promise B :=
  {| settled_at := settled_at p;
     outcome := bind (outcome p) (fun a => Ok (f a)) |}.

(** A piece of a template literal. *)
Inductive Piece : Type :=
| Text (s : string)
| NumberPiece (n : number)
| ValuePiece (v : option json).

(** A call of [Logger.log] or of [Logger.error]. *)
Inductive LogEntry : Type :=
| Log (message : list Piece)
| LogError (message : list Piece) (error : Exn).

(** ** The envelope *)

Record ContentBlock : Type := {
  type : string;
  text : string
}.

Record CallToolResult : Type := {
  isError : option bool;
  content : list ContentBlock
}.

(** What a handler did: the log calls it made, and what it returned or
    threw. *)
Record Handled : Type := {
  logged : list LogEntry;
  returned : Result CallToolResult
}.

(** [try { body } catch (error) { handler(error) }], with the log calls. *)
Definition try_catch_logged (body : list LogEntry * Result CallToolResult)
    (handler : Exn -> list LogEntry * Result CallToolResult) : Handled :=
  match body with
  | (logs, Ok result) => {| logged := logs; returned := Ok result |}
  | (logs, Throw error) =>
      let (logs', r) := handler error in
      {| logged := logs ++ logs'; returned := r |}
  end.

(** ** The Figma service *)

(** One entry of the [nodes] argument of [download_figma_images]. *)
Record ImageNode : Type := {
  nodeId : string;
  imageRef : option string;
  fileName : string
}.

Inductive FileType : Type := svg | png.

Module Render.
Record Request : Type := {
  nodeId : string;
  fileName : string;
  fileType : FileType
}.
End Render.

(** A simplified design: an object with the properties [nodes] and
    [globalVars] among others. *)
Definition SimplifiedDesign : Type := list (string * json).

(** [FigmaService] ([./services/figma.js]), which the handlers call and
    whose code is not part of these sources. *)
Record FigmaService : Type := {
  getNode : string -> string -> option number -> Promise SimplifiedDesign;
  getFile : string -> option number -> Promise SimplifiedDesign;
  getImageFills : string -> list ImageNode -> string -> Promise (list Value);
  getImages : string -> list Render.Request -> string -> Promise (list Value)
}.

(** Modelled from the spec: the image operations of the absent service
    return a sequence with one entry (a path or a null) for each download
    task they are given, whenever they resolve. *)
Definition one_result_per_request (svc : FigmaService) : Prop :=
  forall fileKey localPath,
    (forall reqs rs,
        outcome (getImageFills svc fileKey reqs localPath) = Ok rs ->
        length rs = length reqs) /\
    (forall reqs rs,
        outcome (getImages svc fileKey reqs localPath) = Ok rs ->
        length rs = length reqs).

(** ** get_figma_data *)

Definition text_result (s : string) : CallToolResult :=
  {| isError := None; content := [{| type := "text"; text := s |}] |}.

Definition error_result (s : string) : CallToolResult :=
  {| isError := Some true; content := [{| type := "text"; text := s |}] |}.

(** A name between double quotes, as it stands in the template. *)
Definition quoted (s : string) : string :=
  String dquote (s +:+ String dquote EmptyString).

(** [`[${nodes.map((node) => JSON.stringify(node, null, 2)).join(",")}]`] *)
Definition nodesJson (nodes : list json) : string :=
  "[" +:+ String.concat "," (map stringify nodes) +:+ "]".

(** [JSON.stringify(v, null, 2)] inside a template literal, where [v] may be
    [undefined]. *)
Definition stringify_opt (v : option json) : string :=
  match v with
  | Some v => stringify v
  | None => "undefined"
  end.

Definition resultJson (metadata : list (string * json)) (nodes : list json)
    (globalVars : option json) : string :=
  "{ " +:+ quoted "metadata" +:+ ": " +:+ stringify (JObject metadata)
  +:+ ", " +:+ quoted "nodes" +:+ ": " +:+ nodesJson nodes
  +:+ ", " +:+ quoted "globalVars" +:+ ": " +:+ stringify_opt globalVars
  +:+ " }".

(** [nodeId ? getNode(fileKey, nodeId, depth) : getFile(fileKey, depth)] *)
Definition fetch (svc : FigmaService) (fileKey : string)
    (nodeId : option string) (depth : option number) : Promise SimplifiedDesign :=
  match nodeId with
  | Some id =>
      if truthy_string id then getNode svc fileKey id depth
      else getFile svc fileKey depth
  | None => getFile svc fileKey depth
  end.

Definition fetching_message (fileKey : string) (nodeId : option string)
    (depth : option number) : list Piece :=
  [Text "Fetching "]
  ++ match depth with
     | Some d =>
         if truthy_number d then [NumberPiece d; Text " layers deep"]
         else [Text "all layers"]
     | None => [Text "all layers"]
     end
  ++ [Text " of "]
  ++ match nodeId with
     | Some id =>
         if truthy_string id then [Text "node "; Text id; Text " from file"]
         else [Text "full file"]
     | None => [Text "full file"]
     end
  ++ [Text " "; Text fileKey].

(** The [try] block of the handler. *)
Definition get_figma_data_try (svc : FigmaService) (fileKey : string)
    (nodeId : option string) (depth : option number)
  : list LogEntry * Result CallToolResult :=
  let log1 := Log (fetching_message fileKey nodeId depth) in
  match outcome (fetch svc fileKey nodeId depth) with
  | Throw e => ([log1], Throw e)
  | Ok file =>
      let log2 :=
        Log [Text "Successfully fetched file: ";
             ValuePiece (get_property "name" file)] in
      let nodes := get_property "nodes" file in
      let globalVars := get_property "globalVars" file in
      let metadata := rest_properties ["nodes"; "globalVars"] file in
      match nodes with
      | Some (JArray nodes) =>
          ([log1; log2], Ok (text_result (resultJson metadata nodes globalVars)))
      | Some JNull =>
          ([log1; log2],
           Throw (TypeError "Cannot read properties of null (reading 'map')"))
      | None =>
          ([log1; log2],
           Throw (TypeError "Cannot read properties of undefined (reading 'map')"))
      | Some _ =>
          ([log1; log2], Throw (TypeError "nodes.map is not a function"))
      end
  end.

(** The handler of the tool [get_figma_data]. *)
Definition get_figma_data (svc : FigmaService) (fileKey : string)
    (nodeId : option string) (depth : option number) : Handled :=
  try_catch_logged (get_figma_data_try svc fileKey nodeId depth)
    (fun error =>
       ([LogError [Text "Error fetching file "; Text fileKey; Text ":"] error],
        Ok (error_result ("Error fetching file: " +:+ ToString_exn error)))).

(** ** download_figma_images *)

(** [nodes.filter(({ imageRef }) => !!imageRef)] *)
Definition imageFills (nodes : list ImageNode) : list ImageNode :=
  List.filter (fun n => negb (negb (truthy (imageRef n)))) nodes.

Definition renderRequest (n : ImageNode) : Render.Request :=
  {| Render.nodeId := nodeId n;
     Render.fileName := fileName n;
     Render.fileType := if endsWith (fileName n) ".svg" then svg else png |}.

(** [nodes.filter(({ imageRef }) => !imageRef).map(...)] *)
Definition renderRequests (nodes : list ImageNode) : list Render.Request :=
  map renderRequest (List.filter (fun n => negb (truthy (imageRef n))) nodes).

(** The two service calls and their join:
    [await Promise.all([fillDownloads, renderDownloads]).then(([f, r]) => [...f, ...r])] *)
Definition downloads (svc : FigmaService) (fileKey : string)
    (nodes : list ImageNode) (localPath : string) : Result (list Value) :=
  let fillDownloads := getImageFills svc fileKey (imageFills nodes) localPath in
  let renderDownloads := getImages svc fileKey (renderRequests nodes) localPath in
  bind (all2 fillDownloads renderDownloads) (fun fr => Ok (fst fr ++ snd fr)).

(** *** The order of the calls and of the wait

    A step of an [async] function that the service or the clock can tell: a
    call of the service, which gives a promise at once, or an [await], at
    which the function stops until the promise has settled. *)
Inductive Step : Type :=
| CallGetImageFills (fileKey : string) (nodes : list ImageNode)
    (localPath : string)
| CallGetImages (fileKey : string) (requests : list Render.Request)
    (localPath : string)
| Await (at_ : nat).

(** Statements of an [async] function: the steps taken so far and the
    completion.  After a [throw] the statements that follow are not run. *)
Definition Async (A : Type) : Type := (list Step * Result A)%type.

Definition async_bind {A B : Type} (m : Async A) (k : A -> Async B) : Async B :=
  match m with
  | (steps, Ok a) => let (more, r) := k a in (steps ++ more, r)
  | (steps, Throw e) => (steps, Throw e)
  end.

(** [this.figmaService.getImageFills(...)], not awaited *)
Definition call_getImageFills (svc : FigmaService) (fileKey : string)
    (nodes : list ImageNode) (localPath : string)
  : Async (Promise (list Value)) :=
  ([CallGetImageFills fileKey nodes localPath],
   Ok (getImageFills svc fileKey nodes localPath)).

(** [this.figmaService.getImages(...)], not awaited *)
Definition call_getImages (svc : FigmaService) (fileKey : string)
    (requests : list Render.Request) (localPath : string)
  : Async (Promise (list Value)) :=
  ([CallGetImages fileKey requests localPath],
   Ok (getImages svc fileKey requests localPath)).

(** [await p] *)
Definition await {A : Type} (p : Promise A) : Async A :=
  ([Await (settled_at p)], outcome p).

(** The lines of the handler that [downloads] stands for, statement by
    statement: the two calls, then the one [await]. *)
Definition downloads_steps (svc : FigmaService) (fileKey : string)
    (nodes : list ImageNode) (localPath : string) : Async (list Value) :=
  async_bind (call_getImageFills svc fileKey (imageFills nodes) localPath)
    (fun fillDownloads =>
  async_bind (call_getImages svc fileKey (renderRequests nodes) localPath)
    (fun renderDownloads =>
  await (then_ (Promise_all2 fillDownloads renderDownloads)
               (fun fr => fst fr ++ snd fr)))).

(** [!downloads.find((success) => !success)] *)
Definition saveSuccess (downloads : list Value) : bool :=
  negb (ToBoolean (find (fun success => negb (ToBoolean success)) downloads)).

Definition download_text (downloads : list Value) : string :=
  if saveSuccess downloads then
    "Success, " +:+ length_to_string (length downloads)
    +:+ " images downloaded: " +:+ join ", " downloads
  else "Failed".

(** The [try] block of the handler. *)
Definition download_figma_images_try (svc : FigmaService) (fileKey : string)
    (nodes : list ImageNode) (localPath : string)
  : list LogEntry * Result CallToolResult :=
  ([], bind (downloads svc fileKey nodes localPath)
            (fun ds => Ok (text_result (download_text ds)))).

(** The handler of the tool [download_figma_images]. *)
Definition download_figma_images (svc : FigmaService) (fileKey : string)
    (nodes : list ImageNode) (localPath : string) : Handled :=
  try_catch_logged (download_figma_images_try svc fileKey nodes localPath)
    (fun error =>
       ([LogError [Text "Error downloading images from file "; Text fileKey;
                   Text ":"] error],
        Ok (error_result ("Error downloading images: " +:+ ToString_exn error)))).

(** The number of downloads of a list that did not succeed. *)
Definition failures (downloads : list Value) : nat :=
  length (List.filter (fun d => negb (ToBoolean d)) downloads).

(** ** Services to run the handlers on *)

Definition resolved {A : Type} (a : A) : Promise A :=
  {| settled_at := 0; outcome := Ok a |}.

Definition rejected {A : Type} (at_ : nat) (e : Exn) : Promise A :=
  {| settled_at := at_; outcome := Throw e |}.

Definition sample_design : SimplifiedDesign :=
  [("name", JString "Landing page");
   ("lastModified", JString "2025-03-01T10:00:00Z");
   ("thumbnailUrl", JString "https://example.org/t.png");
   ("nodes",
    JArray [JObject [("id", JString "1:2"); ("name", JString "Frame");
                     ("opacity", JNumber "0.5");
                     ("children", JArray [JObject [("id", JString "1:3")]])];
            JObject [("id", JString "4:5"); ("visible", JBool false)]]);
   ("globalVars",
    JObject [("styles", JObject [("fill_A1", JArray [JString "#FFFFFF"])])])].

(** A service every download of which succeeds, with the path of the file
    written. *)
Definition saving_service : FigmaService :=
  {| getNode := fun _ _ _ => resolved sample_design;
     getFile := fun _ _ => resolved sample_design;
     getImageFills := fun _ reqs localPath =>
       resolved (map (fun n => VString (localPath +:+ "/" +:+ fileName n)) reqs);
     getImages := fun _ reqs localPath =>
       resolved (map (fun r => VString (localPath +:+ "/" +:+ Render.fileName r)) reqs) |}.

(** A service whose downloads all fail, each with a null result. *)
Definition failing_service : FigmaService :=
  {| getNode := fun _ _ _ => resolved sample_design;
     getFile := fun _ _ => resolved sample_design;
     getImageFills := fun _ reqs _ => resolved (map (fun _ => VNull) reqs);
     getImages := fun _ reqs _ => resolved (map (fun _ => VNull) reqs) |}.

(** A service every call of which is rejected. *)
Definition rejecting_service : FigmaService :=
  {| getNode := fun _ _ _ => rejected 1 (Error "Failed to make request to Figma API: Forbidden");
     getFile := fun _ _ => rejected 1 (Error "Failed to make request to Figma API: Forbidden");
     getImageFills := fun _ _ _ => rejected 2 (Error "fetch failed");
     getImages := fun _ _ _ => rejected 1 (Error "Failed to make request to Figma API: Forbidden") |}.

(** The object [{ metadata, nodes, globalVars }] that the handler's text is
    compared with. *)
Definition document (metadata : list (string * json)) (nodes : list json)
    (globalVars : json) : json :=
  JObject [("metadata", JObject metadata); ("nodes", JArray nodes);
           ("globalVars", globalVars)].

(** Requested nodes to run the handler on: a vector icon, an image fill, a
    raster rendering, and a node whose [imageRef] is the empty string. *)
Definition icon : ImageNode :=
  {| nodeId := "1:2"; imageRef := None; fileName := "icon.svg" |}.
Definition photo : ImageNode :=
  {| nodeId := "7:8"; imageRef := Some "0a1b2c"; fileName := "photo.png" |}.
Definition banner : ImageNode :=
  {| nodeId := "3:4"; imageRef := None; fileName := "banner.png" |}.
Definition blank_ref : ImageNode :=
  {| nodeId := "5:6"; imageRef := Some ""; fileName := "shape.svg.bak" |}.

(** A service whose image fills are saved and whose renderings are
    rejected. *)
Definition half_rejecting_service : FigmaService :=
  {| getNode := fun _ _ _ => resolved sample_design;
     getFile := fun _ _ => resolved sample_design;
     getImageFills := fun _ reqs localPath =>
       resolved (map (fun n => VString (localPath +:+ "/" +:+ fileName n)) reqs);
     getImages := fun _ _ _ => rejected 1 (Error "Failed to make request to Figma API: Too Many Requests") |}.

End Server.

(* ================================================================== *)
(** * Properties of the configuration loader                           *)
(* ================================================================== *)

Module ConfigProps.
Import JS Config.

Lemma truthy_Some (x : option string) :
  truthy x = true -> exists s, x = Some s /\ s <> "".
Proof.
  destruct x as [s|]; simpl; [|discriminate].
  unfold truthy_string. intros H. exists s. split; [reflexivity|].
  intros ->. discriminate.
Qed.

Lemma getServerConfig_with_key (env : gmap string string) (isStdioMode : bool) :
  truthy (env !! "FIGMA_API_KEY") = true ->
  getServerConfig env isStdioMode =
    Ok {| figmaApiKey := default "" (env !! "FIGMA_API_KEY");
          port := if isStdioMode then of_N 0
                  else or_number (Number (env !! "PORT")) (of_N 3000) |}.
Proof. intros H. unfold getServerConfig. rewrite H. reflexivity. Qed.

Lemma getServerConfig_without_key (env : gmap string string) (isStdioMode : bool) :
  truthy (env !! "FIGMA_API_KEY") = false ->
  getServerConfig env isStdioMode = Throw (Error "FIGMA_API_KEY is not set").
Proof. intros H. unfold getServerConfig. rewrite H. reflexivity. Qed.

(** C5, as stated, fails: in the empty environment [getServerConfig(true)]
    returns no port at all, it throws. *)
Lemma getServerConfig_stdio_port_needs_key :
  getServerConfig ∅ true = Throw (Error "FIGMA_API_KEY is not set") /\
  ~ (exists cfg, getServerConfig ∅ true = Ok cfg /\ port cfg = of_N 0).
Proof.
  split; [reflexivity|].
  intros [cfg [H _]]. vm_compute in H. discriminate.
Qed.

(** C5, amended: in every environment where FIGMA_API_KEY is set and not
    empty, [getServerConfig(true)] returns port 0, and [getServerConfig(false)]
    returns port 3000 whenever PORT is not set. *)
Theorem getServerConfig_port_default (env : gmap string string) :
  truthy (env !! "FIGMA_API_KEY") = true ->
  (exists cfg, getServerConfig env true = Ok cfg /\ port cfg = of_N 0) /\
  (env !! "PORT" = None ->
   exists cfg, getServerConfig env false = Ok cfg /\ port cfg = of_N 3000).
Proof.
  intros H. split.
  - eexists. split; [apply getServerConfig_with_key; exact H|reflexivity].
  - intros HP. eexists. split; [apply getServerConfig_with_key; exact H|].
    simpl. rewrite HP. reflexivity.
Qed.

Lemma getServerConfig_port_default_witness :
  (exists cfg, getServerConfig env_key true = Ok cfg /\ port cfg = of_N 0) /\
  (exists cfg, getServerConfig env_key false = Ok cfg /\ port cfg = of_N 3000).
Proof.
  destruct (getServerConfig_port_default env_key) as [H1 H2];
    [reflexivity|].
  split; [exact H1|apply H2; reflexivity].
Defined.

(** C9, as stated, fails twice over.  A string that is a number but not a
    positive one is returned as given: with PORT set to -5 the port is -5.
    And without FIGMA_API_KEY the function fails whatever PORT holds. *)
Lemma getServerConfig_negative_port_kept :
  is_positive_number "-5" = false /\
  getServerConfig (<["PORT" := "-5"]> env_key) false =
    Ok {| figmaApiKey := "figd_0123"; port := Finite true (5 # 1) |} /\
  Finite true (5 # 1) <> of_N 3000 /\
  is_positive_number "abc" = false /\
  getServerConfig {[ "PORT" := "abc" ]} false =
    Throw (Error "FIGMA_API_KEY is not set").
Proof.
  split; [reflexivity|]. split; [reflexivity|]. split; [discriminate|].
  split; reflexivity.
Qed.

(** C9, amended: in non-stdio mode and with FIGMA_API_KEY set, whenever PORT
    is set to a string that [Number] turns into [NaN] or into zero
    (non-numeric text, the text 0, the empty string, a literal so small that
    it rounds to zero), [getServerConfig] returns port 3000; any other
    string yields the number [Number] makes of it, which is the double
    nearest to what the string denotes. *)
Theorem getServerConfig_falsy_port_is_3000 (env : gmap string string) (s : string) :
  truthy (env !! "FIGMA_API_KEY") = true ->
  env !! "PORT" = Some s ->
  (truthy_number (StringToNumber s) = false ->
   exists cfg, getServerConfig env false = Ok cfg /\ port cfg = of_N 3000) /\
  (truthy_number (StringToNumber s) = true ->
   exists cfg, getServerConfig env false = Ok cfg /\ port cfg = StringToNumber s).
Proof.
  intros H HP.
  split; intros Hn; eexists;
    (split; [apply getServerConfig_with_key; exact H|]);
    simpl; rewrite HP; simpl; unfold or_number; rewrite Hn; reflexivity.
Qed.

Lemma getServerConfig_falsy_port_is_3000_witness :
  (exists cfg, getServerConfig (<["PORT" := "abc"]> env_key) false = Ok cfg
               /\ port cfg = of_N 3000) /\
  (exists cfg, getServerConfig (<["PORT" := "0"]> env_key) false = Ok cfg
               /\ port cfg = of_N 3000) /\
  (exists cfg, getServerConfig (<["PORT" := "8080"]> env_key) false = Ok cfg
               /\ port cfg = StringToNumber "8080") /\
  (exists cfg, getServerConfig (<["PORT" := "1e-400"]> env_key) false = Ok cfg
               /\ port cfg = of_N 3000) /\
  (exists cfg, getServerConfig (<["PORT" := "9007199254740993"]> env_key) false
               = Ok cfg
               /\ port cfg = StringToNumber "9007199254740993") /\
  (exists cfg, getServerConfig (<["PORT" := "1e400"]> env_key) false = Ok cfg
               /\ port cfg = StringToNumber "1e400") /\
  StringToNumber "8080" = of_N 8080 /\
  StringToNumber "9007199254740993" = of_N 9007199254740992 /\
  StringToNumber "1e400" = Infinity false.
Proof.
  split; [|split; [|split; [|split; [|split; [|split; [|split; [|split]]]]]]].
  - apply (getServerConfig_falsy_port_is_3000 (<["PORT" := "abc"]> env_key) "abc");
      reflexivity.
  - apply (getServerConfig_falsy_port_is_3000 (<["PORT" := "0"]> env_key) "0");
      reflexivity.
  - apply (getServerConfig_falsy_port_is_3000 (<["PORT" := "8080"]> env_key) "8080");
      reflexivity.
  - apply (getServerConfig_falsy_port_is_3000 (<["PORT" := "1e-400"]> env_key)
             "1e-400"); [reflexivity|reflexivity|vm_compute; reflexivity].
  - apply (getServerConfig_falsy_port_is_3000
             (<["PORT" := "9007199254740993"]> env_key) "9007199254740993");
      [reflexivity|reflexivity|vm_compute; reflexivity].
  - apply (getServerConfig_falsy_port_is_3000 (<["PORT" := "1e400"]> env_key)
             "1e400"); [reflexivity|reflexivity|vm_compute; reflexivity].
  - vm_compute; reflexivity.
  - vm_compute; reflexivity.
  - vm_compute; reflexivity.
Defined.

End ConfigProps.

(* ================================================================== *)
(** * Properties of the bootstrap                                      *)
(* ================================================================== *)

Module IndexProps.
Import JS Config Index.

Lemma startServer_switch_other_mode (env : gmap string string)
    (client : AztpClient) (mcpName : string) :
  serverMode env <> "stdio" ->
  startServer_switch env client mcpName = ([], Throw (mode_error (serverMode env))).
Proof.
  intros H. unfold startServer_switch, mode_error.
  destruct (String.eqb_spec (serverMode env) "stdio") as [E|_]; [contradiction|].
  destruct (String.eqb (serverMode env) "http"); reflexivity.
Qed.

Lemma startServer_other_mode (env : gmap string string)
    (client : AztpClient) (mcpName : string) :
  serverMode env <> "stdio" ->
  startServer env client mcpName =
    ([ConsoleError "Failed to start server:" (mode_error (serverMode env))],
     ProcessExit 1).
Proof.
  intros H. unfold startServer.
  rewrite startServer_switch_other_mode by exact H. reflexivity.
Qed.

(** C3: in every server mode other than stdio, [startServer] fails: mode
    http raises the not-implemented error, any other mode the
    unsupported-mode error that names it, the error is logged and the process
    exits with status 1, without a channel having been opened. *)
Theorem startServer_fails_outside_stdio (env : gmap string string)
    (client : AztpClient) (mcpName : string) :
  serverMode env <> "stdio" ->
  startServer_switch env client mcpName =
    ([], Throw (if String.eqb (serverMode env) "http"
                then Error "HTTP server mode not yet implemented"
                else Error ("Unsupported server mode: " +:+ serverMode env))) /\
  snd (startServer env client mcpName) = ProcessExit 1 /\
  (truthy (env !! "AZTP_API_KEY") = true ->
   truthy (env !! "MCP_NAME") = true ->
   initialize client (default "" (env !! "AZTP_API_KEY"))
                     (default "" (env !! "MCP_NAME")) = Ok tt ->
   exit_status (main env client) = Some 1%Z /\
   channel_opened (main env client) = false).
Proof.
  intros H. split; [|split].
  - apply startServer_switch_other_mode. exact H.
  - rewrite startServer_other_mode by exact H. reflexivity.
  - intros Ha Hm Hi. unfold main. rewrite Ha, Hm. simpl. rewrite Hi.
    rewrite startServer_other_mode by exact H. split; reflexivity.
Qed.

Lemma startServer_fails_outside_stdio_witness :
  (startServer_switch (env_mode "http") willing_client "figma-mcp" =
     ([], Throw (Error "HTTP server mode not yet implemented")) /\
   exit_status (main (env_mode "http") willing_client) = Some 1%Z) /\
  (startServer_switch (env_mode "sse") willing_client "figma-mcp" =
     ([], Throw (Error "Unsupported server mode: sse")) /\
   exit_status (main (env_mode "sse") willing_client) = Some 1%Z).
Proof.
  split.
  - destruct (startServer_fails_outside_stdio (env_mode "http") willing_client
                "figma-mcp") as [H1 [_ H3]]; [vm_compute; discriminate|].
    split; [exact H1|]. apply H3; reflexivity.
  - destruct (startServer_fails_outside_stdio (env_mode "sse") willing_client
                "figma-mcp") as [H1 [_ H3]]; [vm_compute; discriminate|].
    split; [exact H1|]. apply H3; reflexivity.
Defined.

(** C4, as stated, fails for FIGMA_API_KEY: the module never calls
    [getServerConfig], so with that credential absent and the other two set
    the process opens its channel and serves; it does not exit. *)
Lemma missing_figma_key_does_not_stop_the_process :
  env_no_figma_key !! "FIGMA_API_KEY" = None /\
  status (main env_no_figma_key willing_client) = Serving /\
  exit_status (main env_no_figma_key willing_client) = None /\
  channel_opened (main env_no_figma_key willing_client) = true.
Proof. repeat split. Qed.

(** C4, amended: when FIGMA_API_KEY is absent (or empty), [getServerConfig]
    throws, and whenever it returns a configuration the key in it is the one
    of the environment, never a default; when AZTP_API_KEY or MCP_NAME is
    absent (or empty), the module throws while it loads, so the process ends
    with status 1 before anything else happened, no channel opened. *)
Theorem missing_credential_fails (env : gmap string string)
    (client : AztpClient) (isStdioMode : bool) :
  (truthy (env !! "FIGMA_API_KEY") = false ->
   getServerConfig env isStdioMode = Throw (Error "FIGMA_API_KEY is not set")) /\
  (forall cfg, getServerConfig env isStdioMode = Ok cfg ->
   env !! "FIGMA_API_KEY" = Some (figmaApiKey cfg) /\ figmaApiKey cfg <> "") /\
  (truthy (env !! "AZTP_API_KEY") = false \/ truthy (env !! "MCP_NAME") = false ->
   (exists message, status (main env client) = Uncaught (Error message)) /\
   exit_status (main env client) = Some 1%Z /\
   effects (main env client) = [] /\
   channel_opened (main env client) = false).
Proof.
  split; [|split].
  - apply ConfigProps.getServerConfig_without_key.
  - intros cfg H. destruct (truthy (env !! "FIGMA_API_KEY")) eqn:E.
    + rewrite ConfigProps.getServerConfig_with_key in H by exact E.
      apply ConfigProps.truthy_Some in E as [s [Es Hs]].
      injection H as <-. simpl. rewrite Es. simpl. split; [reflexivity|exact Hs].
    + rewrite ConfigProps.getServerConfig_without_key in H by exact E.
      discriminate.
  - intros H. unfold main.
    destruct (truthy (env !! "AZTP_API_KEY")) eqn:Ea; simpl.
    + destruct H as [H|H]; [discriminate|]. rewrite H. simpl.
      repeat split. eexists. reflexivity.
    + repeat split. eexists. reflexivity.
Qed.

Lemma missing_credential_fails_witness :
  getServerConfig ∅ true = Throw (Error "FIGMA_API_KEY is not set") /\
  exit_status (main ∅ willing_client) = Some 1%Z /\
  channel_opened (main {[ "AZTP_API_KEY" := "aztp_key" ]} willing_client) = false.
Proof.
  split; [|split].
  - apply (missing_credential_fails ∅ willing_client true). reflexivity.
  - apply (missing_credential_fails ∅ willing_client true). left. reflexivity.
  - apply (missing_credential_fails {[ "AZTP_API_KEY" := "aztp_key" ]}
             willing_client true). right. reflexivity.
Defined.

End IndexProps.

(* ================================================================== *)
(** * Facts about strings                                              *)
(* ================================================================== *)

Module StringFacts.

Lemma app_nil_r (s : string) : s +:+ "" = s.
Proof. induction s as [|c s IH]; simpl; [reflexivity|]. rewrite IH. reflexivity. Qed.

Lemma app_assoc (a b c : string) : (a +:+ b) +:+ c = a +:+ (b +:+ c).
Proof. induction a as [|x a IH]; simpl; [reflexivity|]. rewrite IH. reflexivity. Qed.

Lemma length_app (a b : string) :
  String.length (a +:+ b) = String.length a + String.length b.
Proof. induction a as [|x a IH]; simpl; [reflexivity|]. rewrite IH. reflexivity. Qed.

Lemma substring_all (s : string) : String.substring 0 (String.length s) s = s.
Proof. induction s as [|c s IH]; simpl; [reflexivity|]. rewrite IH. reflexivity. Qed.

Lemma substring_app_r (a b : string) :
  String.substring (String.length a) (String.length b) (a +:+ b) = b.
Proof. induction a as [|x a IH]; simpl; [apply substring_all|exact IH]. Qed.

(** A string is what precedes a position followed by what is at it. *)
Lemma substring_split (s : string) (n : nat) :
  n <= String.length s ->
  s = String.substring 0 n s +:+ String.substring n (String.length s - n) s.
Proof.
  revert n. induction s as [|c s IH]; intros n Hn; simpl in *.
  - destruct n; [reflexivity|lia].
  - destruct n as [|n]; simpl.
    + rewrite substring_all. reflexivity.
    + f_equal. apply IH. lia.
Qed.

End StringFacts.

(* ================================================================== *)
(** * JSON: printing a value and parsing it back                       *)
(* ================================================================== *)

Module JsonProps.
Import JS Json Server.

(** ** White space, string literals and number tokens *)

Lemma skip_ws_app (w s : string) : all_ws w = true -> skip_ws (w +:+ s) = skip_ws s.
Proof.
  induction w as [|c w IH]; simpl; [reflexivity|].
  intros H. apply andb_true_iff in H as [Hc Hw]. rewrite Hc. auto.
Qed.

Lemma skip_ws_head (c : ascii) (r : string) :
  is_ws c = false -> skip_ws (String c r) = String c r.
Proof. intros H. simpl. rewrite H. reflexivity. Qed.

Lemma escape_char_parse (c : ascii) (s : string) (r : option (string * string)) :
  parse_chars s = r ->
  parse_chars (escape_char c +:+ s) = cons_char c r.
Proof.
  intros <-.
  destruct c as [[] [] [] [] [] [] [] []]; reflexivity.
Qed.

Lemma parse_chars_escape (s rest : string) :
  parse_chars (escape s +:+ String dquote rest) = Some (s, rest).
Proof.
  induction s as [|c s IH]; simpl.
  - reflexivity.
  - rewrite StringFacts.app_assoc.
    rewrite (escape_char_parse c _ _ IH). reflexivity.
Qed.

Lemma scan_number_consumed (s : string) :
  forall q lit rest, scan_number q s = Some (lit, rest) -> s = lit +:+ rest.
Proof.
  induction s as [|c s IH]; intros q lit rest; simpl.
  - destruct (accepting q); [|discriminate]. intros [= <- <-]. reflexivity.
  - destruct (num_step q c) as [q'|].
    + destruct (scan_number q' s) as [[l r]|] eqn:E; simpl; [|discriminate].
      intros [= <- <-]. simpl. f_equal. eapply IH. exact E.
    + destruct (accepting q); [|discriminate]. intros [= <- <-]. reflexivity.
Qed.

Lemma num_step_stops (q : NumState) (c : ascii) :
  is_number_char c = false -> num_step q c = None.
Proof.
  unfold is_number_char. intros H.
  apply orb_false_iff in H as [H Hminus].
  apply orb_false_iff in H as [H Hplus].
  apply orb_false_iff in H as [H Hdot].
  apply orb_false_iff in H as [Hdigit He].
  assert (Ascii.eqb c "0" = false) as Hzero.
  { destruct (Ascii.eqb_spec c "0") as [->|]; [discriminate|reflexivity]. }
  destruct q; simpl; rewrite ?Hminus, ?Hzero, ?Hdigit, ?Hdot, ?He, ?Hplus;
    reflexivity.
Qed.

Lemma scan_number_app (lit : string) :
  forall q rest,
    scan_number q lit = Some (lit, EmptyString) ->
    ends_token rest = true ->
    scan_number q (lit +:+ rest) = Some (lit, rest).
Proof.
  induction lit as [|c lit IH]; intros q rest; simpl.
  - destruct (accepting q) eqn:A; [|discriminate]. intros _ H.
    destruct rest as [|d rest]; simpl; [rewrite A; reflexivity|].
    simpl in H. apply negb_true_iff in H.
    rewrite (num_step_stops q d H), A. reflexivity.
  - destruct (num_step q c) as [q'|].
    + destruct (scan_number q' lit) as [[l r]|] eqn:E; simpl; [|discriminate].
      intros [= -> ->] H. rewrite (IH q' rest E H). reflexivity.
    + destruct (accepting q); discriminate.
Qed.

Lemma is_number_literal_scan (lit : string) :
  is_number_literal lit = true -> scan_number NStart lit = Some (lit, EmptyString).
Proof.
  unfold is_number_literal.
  destruct (scan_number NStart lit) as [[l r]|] eqn:E; [|discriminate].
  destruct r; [|discriminate]. intros _.
  apply scan_number_consumed in E. rewrite StringFacts.app_nil_r in E.
  subst l. reflexivity.
Qed.

Lemma number_literal_head (lit : string) :
  is_number_literal lit = true ->
  exists c r, lit = String c r /\ starts_number c = true.
Proof.
  intros H. apply is_number_literal_scan in H.
  destruct lit as [|c r]; [discriminate|]. exists c, r. split; [reflexivity|].
  simpl in H. unfold starts_number.
  destruct (Ascii.eqb c "-"); [reflexivity|].
  destruct (Ascii.eqb_spec c "0") as [->|]; [reflexivity|].
  destruct (is_digit c); [reflexivity|discriminate].
Qed.

Lemma starts_number_facts (c : ascii) :
  starts_number c = true ->
  is_ws c = false /\ Ascii.eqb c "[" = false /\ Ascii.eqb c "{" = false /\
  Ascii.eqb c dquote = false /\ Ascii.eqb "]" c = false /\
  Ascii.eqb "t" c = false /\ Ascii.eqb "f" c = false /\ Ascii.eqb "n" c = false.
Proof.
  destruct c as [[] [] [] [] [] [] [] []]; vm_compute; intros H;
    try discriminate; repeat split.
Qed.

Lemma ws_ends_token (w : string) (c : ascii) (rest : string) :
  all_ws w = true -> is_number_char c = false ->
  ends_token (w +:+ String c rest) = true.
Proof.
  destruct w as [|d w]; simpl.
  - intros _ ->. reflexivity.
  - intros H _. apply andb_true_iff in H as [H _]. apply negb_true_iff.
    revert H. destruct d as [[] [] [] [] [] [] [] []]; vm_compute; congruence.
Qed.

(** ** Well-formed values *)

Lemma well_formed_JArray (l : list json) :
  well_formed (JArray l) <-> Forall well_formed l.
Proof.
  simpl. induction l as [|x l IH]; split; intros H.
  - constructor.
  - exact I.
  - destruct H as [Hx Hl]. constructor; [exact Hx|apply IH; exact Hl].
  - inversion H; subst. split; [assumption|apply IH; assumption].
Qed.

Lemma well_formed_JObject (m : list (string * json)) :
  well_formed (JObject m) <->
  List.NoDup (map fst m) /\ Forall (fun kv => well_formed (snd kv)) m.
Proof.
  simpl. apply and_iff_compat_l.
  induction m as [|x m IH]; split; intros H.
  - constructor.
  - exact I.
  - destruct H as [Hx Hl]. constructor; [exact Hx|apply IH; exact Hl].
  - inversion H; subst. split; [assumption|apply IH; assumption].
Qed.

(** ** One step of each parser *)

(** Unfolds a parser by one unit of fuel and leaves the lexical functions
    folded. *)
Ltac step_parser :=
  with_strategy opaque [strip_prefix skip_ws parse_chars scan_number] simpl.

Lemma parse_value_array (f : nat) (s r : string) (vs : list json) (r' : string) :
  skip_ws s = String "[" r ->
  strip_prefix "]" (skip_ws r) = None ->
  parse_elements f r = Some (vs, r') ->
  parse_value (S f) s = Some (JArray vs, r').
Proof.
  intros H1 H2 H3. step_parser. rewrite H1. step_parser. rewrite H2, H3.
  reflexivity.
Qed.

Lemma parse_value_object (f : nat) (s r : string) (ms : list (string * json))
    (r' : string) :
  skip_ws s = String "{" r ->
  strip_prefix "}" (skip_ws r) = None ->
  parse_members f r = Some (ms, r') ->
  parse_value (S f) s = Some (JObject (object_of_members ms), r').
Proof.
  intros H1 H2 H3. step_parser. rewrite H1. step_parser. rewrite H2, H3.
  reflexivity.
Qed.

Lemma parse_elements_cons (f : nat) (s : string) (v : json) (r r' : string)
    (vs : list json) (r'' : string) :
  parse_value f s = Some (v, r) ->
  skip_ws r = String "," r' ->
  parse_elements f r' = Some (vs, r'') ->
  parse_elements (S f) s = Some (v :: vs, r'').
Proof.
  intros H1 H2 H3. step_parser. rewrite H1, H2. step_parser. rewrite H3.
  reflexivity.
Qed.

Lemma parse_elements_last (f : nat) (s : string) (v : json) (r r' : string) :
  parse_value f s = Some (v, r) ->
  skip_ws r = String "]" r' ->
  parse_elements (S f) s = Some ([v], r').
Proof. intros H1 H2. step_parser. rewrite H1, H2. reflexivity. Qed.

Lemma strip_quote (k t : string) :
  strip_prefix (String dquote EmptyString) (QuoteJSONString k +:+ t) =
    Some (escape k +:+ String dquote t).
Proof.
  unfold QuoteJSONString. simpl. rewrite StringFacts.app_assoc. reflexivity.
Qed.

Lemma parse_members_cons (f : nat) (s : string) (k : string) (t : string)
    (v : json) (r r' : string) (ms : list (string * json)) (r'' : string) :
  skip_ws s = QuoteJSONString k +:+ ":" +:+ t ->
  parse_value f t = Some (v, r) ->
  skip_ws r = String "," r' ->
  parse_members f r' = Some (ms, r'') ->
  parse_members (S f) s = Some ((k, v) :: ms, r'').
Proof.
  intros H1 H2 H3 H4. step_parser. rewrite H1, strip_quote, parse_chars_escape.
  simpl. rewrite H2, H3. simpl. rewrite H4. reflexivity.
Qed.

Lemma parse_members_last (f : nat) (s : string) (k : string) (t : string)
    (v : json) (r r' : string) :
  skip_ws s = QuoteJSONString k +:+ ":" +:+ t ->
  parse_value f t = Some (v, r) ->
  skip_ws r = String "}" r' ->
  parse_members (S f) s = Some ([(k, v)], r').
Proof.
  intros H1 H2 H3. step_parser. rewrite H1, strip_quote, parse_chars_escape.
  simpl. rewrite H2, H3. reflexivity.
Qed.

(** ** Sequences of elements and of members *)

Lemma head_ok_app (s t : string) : head_ok s -> head_ok (s +:+ t).
Proof.
  intros [c [r [-> H]]]. exists c, (r +:+ t). split; [reflexivity|exact H].
Qed.

Lemma head_ok_skip (w s : string) :
  all_ws w = true -> head_ok s ->
  skip_ws (w +:+ s) = s /\ strip_prefix "]" (skip_ws (w +:+ s)) = None.
Proof.
  intros Hw [c [r [-> [H1 H2]]]]. rewrite skip_ws_app by exact Hw.
  rewrite skip_ws_head by exact H1. split; [reflexivity|].
  change (strip_prefix "]" (String c r))
    with (if Ascii.eqb "]" c then strip_prefix "" r else None).
  rewrite H2. reflexivity.
Qed.

Lemma serialized_head (indent : string) (v : json) :
  well_formed v -> head_ok (SerializeJSONProperty indent v).
Proof.
  destruct v as [|b|lit|s|l|m]; intros Hwf.
  - repeat eexists.
  - destruct b; repeat eexists.
  - simpl in *. apply number_literal_head in Hwf as [c [r [-> H]]].
    apply starts_number_facts in H. exists c, r. tauto.
  - repeat eexists.
  - simpl. destruct (map _ l); repeat eexists.
  - simpl. destruct (map _ m); repeat eexists.
Qed.

Lemma all_ws_app (a b : string) :
  all_ws a = true -> all_ws b = true -> all_ws (a +:+ b) = true.
Proof.
  induction a as [|c a IH]; simpl; [auto|].
  intros H Hb. apply andb_true_iff in H as [Hc Ha]. rewrite Hc. auto.
Qed.

Lemma parse_elements_concat (l : list json) :
  Forall parses l -> l <> [] ->
  forall fuel indent w0 w1 w2 rest,
    need_elements l <= fuel ->
    all_ws indent = true ->
    all_ws w0 = true -> all_ws w1 = true -> all_ws w2 = true ->
    parse_elements fuel
      (w0 +:+ String.concat ("," +:+ w1) (map (SerializeJSONProperty indent) l)
          +:+ w2 +:+ "]" +:+ rest) = Some (l, rest).
Proof.
  induction l as [|x l IH]; intros Hl Hne fuel indent w0 w1 w2 rest Hf Hi H0 H1 H2;
    [contradiction|].
  inversion Hl as [|? ? Hx Hl']; subst.
  destruct fuel as [|f]; [simpl in Hf; lia|]. simpl in Hf.
  destruct l as [|y l].
  - simpl. eapply parse_elements_last.
    + apply Hx; [lia|exact Hi|exact H0|]. apply ws_ends_token; [exact H2|reflexivity].
    + rewrite skip_ws_app by exact H2. reflexivity.
  - change (String.concat ("," +:+ w1)
              (map (SerializeJSONProperty indent) (x :: y :: l)))
      with (SerializeJSONProperty indent x +:+ ("," +:+ w1)
            +:+ String.concat ("," +:+ w1)
                  (map (SerializeJSONProperty indent) (y :: l))).
    rewrite !StringFacts.app_assoc.
    eapply parse_elements_cons.
    + apply Hx; [lia|exact Hi|exact H0|reflexivity].
    + reflexivity.
    + apply IH; try assumption; [discriminate|].
      fold (need_elements (y :: l)) in Hf. lia.
Qed.

Lemma skip_ws_member (w k t u : string) :
  all_ws w = true ->
  skip_ws (w +:+ (QuoteJSONString k +:+ ": " +:+ t) +:+ u) =
    QuoteJSONString k +:+ ":" +:+ (" " +:+ t +:+ u).
Proof.
  intros H. rewrite skip_ws_app by exact H.
  rewrite !StringFacts.app_assoc. reflexivity.
Qed.

Lemma parse_members_concat (m : list (string * json)) :
  Forall (fun kv => parses (snd kv)) m -> m <> [] ->
  forall fuel indent w0 w1 w2 rest,
    need_members m <= fuel ->
    all_ws indent = true ->
    all_ws w0 = true -> all_ws w1 = true -> all_ws w2 = true ->
    parse_members fuel
      (w0 +:+ String.concat ("," +:+ w1) (map (member_text indent) m)
          +:+ w2 +:+ "}" +:+ rest) = Some (m, rest).
Proof.
  induction m as [|[k x] m IH];
    intros Hm Hne fuel indent w0 w1 w2 rest Hf Hi H0 H1 H2; [contradiction|].
  inversion Hm as [|? ? Hx Hm']; subst. simpl in Hx.
  destruct fuel as [|f]; [simpl in Hf; lia|]. simpl in Hf.
  destruct m as [|y m].
  - change (String.concat ("," +:+ w1) (map (member_text indent) [(k, x)]))
      with (QuoteJSONString k +:+ ": " +:+ SerializeJSONProperty indent x).
    eapply parse_members_last.
    + apply skip_ws_member. exact H0.
    + apply (Hx f indent " "); [lia|exact Hi|reflexivity|].
      apply ws_ends_token; [exact H2|reflexivity].
    + rewrite skip_ws_app by exact H2. reflexivity.
  - change (String.concat ("," +:+ w1) (map (member_text indent) ((k, x) :: y :: m)))
      with ((QuoteJSONString k +:+ ": " +:+ SerializeJSONProperty indent x)
            +:+ ("," +:+ w1)
            +:+ String.concat ("," +:+ w1) (map (member_text indent) (y :: m))).
    rewrite (StringFacts.app_assoc (QuoteJSONString k +:+ ": " +:+ _)).
    eapply parse_members_cons.
    + apply skip_ws_member. exact H0.
    + apply (Hx f indent " "); [lia|exact Hi|reflexivity|reflexivity].
    + reflexivity.
    + rewrite !StringFacts.app_assoc.
      apply IH; try assumption; [discriminate|].
      fold (need_members (y :: m)) in Hf. lia.
Qed.

(** ** The round trip of one value *)

Lemma set_property_fresh (k : string) (v : json) (o : list (string * json)) :
  ~ In k (map fst o) -> set_property k v o = o ++ [(k, v)].
Proof.
  induction o as [|[k' v'] o IH]; simpl; [reflexivity|].
  intros H. destruct (String.eqb_spec k k') as [->|_]; [tauto|].
  rewrite IH by tauto. reflexivity.
Qed.

Lemma object_of_members_acc (ms acc : list (string * json)) :
  List.NoDup (map fst (acc ++ ms)) ->
  fold_left (fun o m => set_property (fst m) (snd m) o) ms acc = acc ++ ms.
Proof.
  revert acc. induction ms as [|[k v] ms IH]; intros acc H; simpl.
  - symmetry. apply app_nil_r.
  - rewrite set_property_fresh.
    + rewrite IH; rewrite <- app_assoc; [reflexivity|exact H].
    + rewrite map_app in H. simpl in H. apply NoDup_remove_2 in H.
      intros Hin. apply H. apply in_or_app. left. exact Hin.
Qed.

Lemma object_of_members_NoDup (ms : list (string * json)) :
  List.NoDup (map fst ms) -> object_of_members ms = ms.
Proof. intros H. apply (object_of_members_acc ms []). exact H. Qed.

Lemma parses_scalar (v : json) (c : ascii) (r : string) :
  (forall indent, SerializeJSONProperty indent v = String c r) ->
  need v = 1 ->
  (forall f rest, ends_token rest = true ->
     parse_value (S f) (String c (r +:+ rest)) = Some (v, rest)) ->
  is_ws c = false ->
  parses v.
Proof.
  intros Hs Hn Hp Hc fuel indent w rest Hf _ Hw Hr.
  rewrite Hs. destruct fuel as [|f]; [lia|].
  change (String c r +:+ rest) with (String c (r +:+ rest)).
  rewrite <- (Hp f rest Hr).
  step_parser. rewrite skip_ws_app by exact Hw.
  rewrite !skip_ws_head by exact Hc. reflexivity.
Qed.

Lemma parses_number (lit : string) :
  is_number_literal lit = true -> parses (JNumber lit).
Proof.
  intros Hwf. destruct (number_literal_head lit Hwf) as [c [r [-> Hc]]].
  apply starts_number_facts in Hc as (C1 & C2 & C3 & C4 & C5 & C6 & C7 & C8).
  apply (parses_scalar (JNumber (String c r)) c r); try reflexivity; [|exact C1].
  intros f rest Hr. step_parser. rewrite skip_ws_head by exact C1.
  rewrite C2, C3, C4.
  change (strip_prefix "true" (String c (r +:+ rest)))
    with (if Ascii.eqb "t" c then strip_prefix "rue" (r +:+ rest) else None).
  change (strip_prefix "false" (String c (r +:+ rest)))
    with (if Ascii.eqb "f" c then strip_prefix "alse" (r +:+ rest) else None).
  change (strip_prefix "null" (String c (r +:+ rest)))
    with (if Ascii.eqb "n" c then strip_prefix "ull" (r +:+ rest) else None).
  rewrite C6, C7, C8.
  change (String c (r +:+ rest)) with (String c r +:+ rest).
  rewrite (scan_number_app _ _ _ (is_number_literal_scan _ Hwf) Hr).
  reflexivity.
Qed.

Lemma parses_string (s : string) : parses (JString s).
Proof.
  intros fuel indent w rest Hf _ Hw Hr.
  destruct fuel as [|f]; [simpl in Hf; lia|].
  step_parser. rewrite skip_ws_app by exact Hw.
  unfold QuoteJSONString. simpl String.append.
  rewrite skip_ws_head by reflexivity. step_parser.
  rewrite StringFacts.app_assoc. simpl String.append.
  rewrite parse_chars_escape. reflexivity.
Qed.

Lemma all_ws_newline_indent (indent : string) :
  all_ws indent = true -> all_ws (newline +:+ indent) = true.
Proof. intros H. simpl. exact H. Qed.

Lemma all_ws_indent_gap (indent : string) :
  all_ws indent = true -> all_ws (indent +:+ gap) = true.
Proof. intros H. apply all_ws_app; [exact H|reflexivity]. Qed.

Lemma head_ok_concat (sep : string) (x : string) (l : list string) (t : string) :
  head_ok x -> head_ok (String.concat sep (x :: l) +:+ t).
Proof.
  intros H. apply head_ok_app. destruct l; simpl; [exact H|].
  apply head_ok_app. exact H.
Qed.

Lemma bracket_text (w o a c w2 cl rest : string) :
  w +:+ (o +:+ a +:+ c +:+ w2 +:+ cl) +:+ rest =
  w +:+ o +:+ (a +:+ c +:+ w2 +:+ cl +:+ rest).
Proof. rewrite !StringFacts.app_assoc. reflexivity. Qed.

Lemma parses_array (l : list json) :
  Forall parses l -> Forall well_formed l -> parses (JArray l).
Proof.
  intros Hl Hwf fuel indent w rest Hf Hi Hw Hr.
  destruct fuel as [|f]; [simpl in Hf; lia|].
  destruct l as [|x l].
  - step_parser. rewrite skip_ws_app by exact Hw. reflexivity.
  - change (SerializeJSONProperty indent (JArray (x :: l)))
      with ("[" +:+ (newline +:+ (indent +:+ gap))
            +:+ String.concat ("," +:+ newline +:+ (indent +:+ gap))
                  (map (SerializeJSONProperty (indent +:+ gap)) (x :: l))
            +:+ (newline +:+ indent) +:+ "]").
    pose proof (all_ws_newline_indent _ (all_ws_indent_gap _ Hi)) as Hw0.
    pose proof (all_ws_newline_indent _ Hi) as Hw2.
    inversion Hwf as [|? ? Hx _]; subst.
    rewrite bracket_text.
    eapply parse_value_array.
    + rewrite skip_ws_app by exact Hw. reflexivity.
    + apply head_ok_skip; [exact Hw0|].
      apply head_ok_concat. apply serialized_head. exact Hx.
    + apply parse_elements_concat; try assumption; [discriminate|].
      simpl in Hf. fold (need_elements l) in Hf. simpl. lia.
Qed.

Lemma strip_close_quote (k t : string) :
  strip_prefix "}" (QuoteJSONString k +:+ t) = None.
Proof. reflexivity. Qed.

Lemma parses_object (m : list (string * json)) :
  Forall (fun kv => parses (snd kv)) m -> List.NoDup (map fst m) ->
  parses (JObject m).
Proof.
  intros Hm Hnd fuel indent w rest Hf Hi Hw Hr.
  destruct fuel as [|f]; [simpl in Hf; lia|].
  destruct m as [|[k x] m].
  - step_parser. rewrite skip_ws_app by exact Hw. reflexivity.
  - change (SerializeJSONProperty indent (JObject ((k, x) :: m)))
      with ("{" +:+ (newline +:+ (indent +:+ gap))
            +:+ String.concat ("," +:+ newline +:+ (indent +:+ gap))
                  (map (member_text (indent +:+ gap)) ((k, x) :: m))
            +:+ (newline +:+ indent) +:+ "}").
    pose proof (all_ws_newline_indent _ (all_ws_indent_gap _ Hi)) as Hw0.
    pose proof (all_ws_newline_indent _ Hi) as Hw2.
    rewrite <- (object_of_members_NoDup _ Hnd) at 2.
    rewrite bracket_text.
    eapply parse_value_object.
    + rewrite skip_ws_app by exact Hw. reflexivity.
    + rewrite skip_ws_app by exact Hw0. destruct m; reflexivity.
    + apply parse_members_concat; try assumption; [discriminate|].
      simpl in Hf. fold (need_members m) in Hf. simpl. lia.
Qed.

(** Printing a value and parsing the text gives the value back. *)
Theorem parse_serialized (v : json) : well_formed v -> parses v.
Proof.
  induction v as [|b|lit|s|l IH|m IH] using json_induction; intros Hwf.
  - apply (parses_scalar JNull "n" "ull"); try reflexivity.
  - destruct b.
    + apply (parses_scalar (JBool true) "t" "rue"); try reflexivity.
    + apply (parses_scalar (JBool false) "f" "alse"); try reflexivity.
  - apply parses_number. exact Hwf.
  - apply parses_string.
  - apply well_formed_JArray in Hwf. apply parses_array; [|exact Hwf].
    clear - IH Hwf. induction IH; inversion Hwf; subst; constructor; auto.
  - apply well_formed_JObject in Hwf as [Hnd Hwf].
    apply parses_object; [|exact Hnd].
    clear - IH Hwf. induction IH; inversion Hwf; subst; constructor; auto.
Qed.

(** ** Fuel and length *)

Lemma concat_cons2 (sep a b : string) (t : list string) :
  String.concat sep (a :: b :: t) = a +:+ sep +:+ String.concat sep (b :: t).
Proof. reflexivity. Qed.

Lemma need_elements_cons (x : json) (l : list json) :
  need_elements (x :: l) = S (need x + need_elements l).
Proof. reflexivity. Qed.

Lemma need_members_cons (m : string * json) (l : list (string * json)) :
  need_members (m :: l) = S (need (snd m) + need_members l).
Proof. reflexivity. Qed.

Lemma concat_length_elements (sep : string) (indent : string) (l : list json) :
  1 <= String.length sep ->
  Forall (fun v => forall i, need v <= String.length (SerializeJSONProperty i v)) l ->
  need_elements l
    <= String.length (String.concat sep (map (SerializeJSONProperty indent) l)) + 1.
Proof.
  intros Hsep Hl. induction Hl as [|x l Hx Hl IH]; [simpl; lia|].
  rewrite need_elements_cons. specialize (Hx indent).
  destruct l as [|y l].
  - simpl. lia.
  - rewrite map_cons, map_cons, concat_cons2, <- map_cons.
    rewrite !StringFacts.length_app. lia.
Qed.

Lemma member_text_length (indent : string) (m : string * json) :
  String.length (member_text indent m)
  = 4 + String.length (escape (fst m))
    + String.length (SerializeJSONProperty indent (snd m)).
Proof.
  unfold member_text, QuoteJSONString. simpl.
  rewrite !StringFacts.length_app. simpl. lia.
Qed.

Lemma concat_length_members (sep : string) (indent : string)
    (l : list (string * json)) :
  1 <= String.length sep ->
  Forall (fun m => forall i,
            need (snd m) <= String.length (SerializeJSONProperty i (snd m))) l ->
  need_members l
    <= String.length (String.concat sep (map (member_text indent) l)) + 1.
Proof.
  intros Hsep Hl. induction Hl as [|x l Hx Hl IH]; [simpl; lia|].
  rewrite need_members_cons. specialize (Hx indent).
  destruct l as [|y l].
  - change (String.concat sep (map (member_text indent) [x]))
      with (member_text indent x).
    rewrite member_text_length. simpl. lia.
  - rewrite map_cons, map_cons, concat_cons2, <- map_cons.
    rewrite !StringFacts.length_app, member_text_length. lia.
Qed.

(** The fuel a value needs is at most the length of its text. *)
Lemma need_le_length (v : json) :
  well_formed v ->
  forall indent, need v <= String.length (SerializeJSONProperty indent v).
Proof.
  induction v as [|b|lit|s|l IH|m IH] using json_induction; intros Hwf indent.
  - simpl. lia.
  - destruct b; simpl; lia.
  - simpl in *. apply number_literal_head in Hwf as [c [r [-> _]]]. simpl. lia.
  - simpl. lia.
  - apply well_formed_JArray in Hwf.
    assert (Forall (fun v => forall i,
                      need v <= String.length (SerializeJSONProperty i v)) l) as Hl.
    { clear - IH Hwf. induction IH; inversion Hwf; subst; constructor; auto. }
    destruct l as [|x l]; [simpl; lia|].
    change (SerializeJSONProperty indent (JArray (x :: l)))
      with ("[" +:+ (newline +:+ (indent +:+ gap))
            +:+ String.concat ("," +:+ newline +:+ (indent +:+ gap))
                  (map (SerializeJSONProperty (indent +:+ gap)) (x :: l))
            +:+ (newline +:+ indent) +:+ "]").
    pose proof (concat_length_elements ("," +:+ newline +:+ (indent +:+ gap))
                  (indent +:+ gap) (x :: l)) as H.
    rewrite !StringFacts.length_app.
    change (need (JArray (x :: l))) with (S (need_elements (x :: l))).
    specialize (H ltac:(simpl; lia) Hl).
    change (String.length "[") with 1. change (String.length "]") with 1. lia.
  - apply well_formed_JObject in Hwf as [_ Hwf].
    assert (Forall (fun m => forall i,
              need (snd m) <= String.length (SerializeJSONProperty i (snd m))) m)
      as Hl.
    { clear - IH Hwf. induction IH; inversion Hwf; subst; constructor; auto. }
    destruct m as [|x m]; [simpl; lia|].
    change (SerializeJSONProperty indent (JObject (x :: m)))
      with ("{" +:+ (newline +:+ (indent +:+ gap))
            +:+ String.concat ("," +:+ newline +:+ (indent +:+ gap))
                  (map (member_text (indent +:+ gap)) (x :: m))
            +:+ (newline +:+ indent) +:+ "}").
    pose proof (concat_length_members ("," +:+ newline +:+ (indent +:+ gap))
                  (indent +:+ gap) (x :: m)) as H.
    rewrite !StringFacts.length_app.
    change (need (JObject (x :: m))) with (S (need_members (x :: m))).
    specialize (H ltac:(simpl; lia) Hl).
    change (String.length "{") with 1. change (String.length "}") with 1. lia.
Qed.

(** [JSON.parse(JSON.stringify(v, null, 2))] is [v]. *)
Theorem parse_stringify (v : json) :
  well_formed v -> parse (stringify v) = Some v.
Proof.
  intros Hwf. unfold parse, stringify.
  pose proof (parse_serialized v Hwf (S (String.length (SerializeJSONProperty "" v)))
                "" "" "") as H.
  simpl String.append in H. rewrite StringFacts.app_nil_r in H.
  rewrite H; [reflexivity| |reflexivity|reflexivity|reflexivity].
  pose proof (need_le_length v Hwf ""). lia.
Qed.

(** ** The text the handler assembles *)

Lemma Forall_parses (l : list json) : Forall well_formed l -> Forall parses l.
Proof. intros H. induction H; constructor; auto using parse_serialized. Qed.

(** The array the handler splices from the nodes, one text for each, reads
    back as the array of the nodes. *)
Lemma parse_value_nodesJson (nodes : list json) (fuel : nat) (w rest : string) :
  Forall well_formed nodes ->
  need (JArray nodes) <= fuel ->
  all_ws w = true ->
  parse_value fuel (w +:+ nodesJson nodes +:+ rest) = Some (JArray nodes, rest).
Proof.
  intros Hwf Hf Hw. destruct fuel as [|f]; [simpl in Hf; lia|].
  destruct nodes as [|x l].
  - step_parser. rewrite skip_ws_app by exact Hw. reflexivity.
  - assert (w +:+ nodesJson (x :: l) +:+ rest
            = w +:+ "[" +:+ ("" +:+ String.concat ("," +:+ "")
                                      (map (SerializeJSONProperty "") (x :: l))
                             +:+ "" +:+ "]" +:+ rest)) as ->.
    { unfold nodesJson. rewrite !StringFacts.app_assoc. reflexivity. }
    inversion Hwf as [|? ? Hx _]; subst.
    eapply parse_value_array.
    + rewrite skip_ws_app by exact Hw. reflexivity.
    + apply (head_ok_skip ""); [reflexivity|].
      apply head_ok_concat. apply serialized_head. exact Hx.
    + apply parse_elements_concat; try reflexivity;
        [apply Forall_parses; exact Hwf|discriminate|].
      simpl in Hf. fold (need_elements l) in Hf. simpl. lia.
Qed.

Lemma nodesJson_length (nodes : list json) :
  Forall well_formed nodes ->
  need (JArray nodes) <= String.length (nodesJson nodes).
Proof.
  intros Hwf. unfold nodesJson.
  pose proof (concat_length_elements "," "" nodes) as H.
  rewrite !StringFacts.length_app.
  change (need (JArray nodes)) with (S (need_elements nodes)).
  change (String.length "[") with 1. change (String.length "]") with 1.
  assert (need_elements nodes
          <= String.length (String.concat "," (map stringify nodes)) + 1).
  { apply H; [simpl; lia|].
    clear - Hwf. induction Hwf; constructor; auto using need_le_length. }
  lia.
Qed.

Lemma skip_ws_space_quote (k t : string) :
  skip_ws (String " " (QuoteJSONString k +:+ ": " +:+ t))
  = QuoteJSONString k +:+ ":" +:+ (" " +:+ t).
Proof. reflexivity. Qed.

Lemma parse_value_resultJson (metadata : list (string * json))
    (nodes : list json) (globalVars : json) (fuel : nat) :
  well_formed (JObject metadata) ->
  Forall well_formed nodes ->
  well_formed globalVars ->
  4 + need (JObject metadata) + need (JArray nodes) + need globalVars <= fuel ->
  parse_value fuel (resultJson metadata nodes (Some globalVars))
  = Some (document metadata nodes globalVars, EmptyString).
Proof.
  intros Hm Hn Hg Hf.
  destruct fuel as [|[|[|[|f]]]]; try lia.
  unfold resultJson, stringify_opt, stringify.
  change (quoted "metadata") with (QuoteJSONString "metadata").
  change (quoted "nodes") with (QuoteJSONString "nodes").
  change (quoted "globalVars") with (QuoteJSONString "globalVars").
  change (document metadata nodes globalVars)
    with (JObject (object_of_members
                     [("metadata", JObject metadata); ("nodes", JArray nodes);
                      ("globalVars", globalVars)])).
  eapply parse_value_object.
  - reflexivity.
  - reflexivity.
  - eapply parse_members_cons.
    + apply skip_ws_space_quote.
    + apply (parse_serialized _ Hm _ "" " "); [lia|reflexivity..].
    + reflexivity.
    + eapply parse_members_cons.
      * apply skip_ws_space_quote.
      * apply (parse_value_nodesJson nodes _ " "); [exact Hn|lia|reflexivity].
      * reflexivity.
      * eapply parse_members_last.
        -- apply skip_ws_space_quote.
        -- apply (parse_serialized _ Hg _ "" " "); [lia|reflexivity..].
        -- reflexivity.
Qed.

Lemma distinct_NoDup (l : list string) : distinct l = true -> List.NoDup l.
Proof.
  induction l as [|k l IH]; simpl; intros H; constructor.
  - apply andb_true_iff in H as [H _]. apply negb_true_iff in H.
    intros Hin. apply not_true_iff_false in H. apply H.
    apply existsb_exists. exists k. split; [exact Hin|apply String.eqb_refl].
  - apply IH. apply andb_true_iff in H as [_ H]. exact H.
Qed.

Lemma well_formedb_sound (v : json) : well_formedb v = true -> well_formed v.
Proof.
  induction v as [|b|lit|s|l IH|m IH] using json_induction; intros H;
    try exact I.
  - exact H.
  - apply well_formed_JArray. simpl in H.
    induction IH as [|x l Hx _ IHl]; constructor;
      simpl in H; apply andb_true_iff in H as [H1 H2]; auto.
  - apply well_formed_JObject. simpl in H.
    apply andb_true_iff in H as [Hd H]. split; [apply distinct_NoDup; exact Hd|].
    clear Hd. induction IH as [|x l Hx _ IHl]; constructor;
      simpl in H; apply andb_true_iff in H as [H1 H2]; auto.
Qed.

Lemma get_property_In (k : string) (o : list (string * json)) (v : json) :
  get_property k o = Some v -> In (k, v) o.
Proof.
  induction o as [|[k' v'] o IH]; simpl; [discriminate|].
  destruct (String.eqb_spec k k') as [->|_].
  - intros [= ->]. left. reflexivity.
  - intros H. right. apply IH. exact H.
Qed.

Lemma well_formed_property (k : string) (o : list (string * json)) (v : json) :
  well_formed (JObject o) -> get_property k o = Some v -> well_formed v.
Proof.
  intros Hwf H. apply well_formed_JObject in Hwf as [_ Hwf].
  apply get_property_In in H. rewrite List.Forall_forall in Hwf.
  apply (Hwf (k, v)). exact H.
Qed.

Lemma rest_properties_In (names : list string) (o : list (string * json))
    (k : string) (v : json) :
  In (k, v) (rest_properties names o) <-> In (k, v) o /\ ~ In k names.
Proof.
  unfold rest_properties. rewrite filter_In. simpl.
  apply and_iff_compat_l. rewrite negb_true_iff, <- not_true_iff_false.
  rewrite existsb_exists. split.
  - intros H Hin. apply H. exists k. split; [exact Hin|apply String.eqb_refl].
  - intros H [x [Hin Hx]]. apply String.eqb_eq in Hx. subst x. tauto.
Qed.

Lemma NoDup_keys_filter (f : string * json -> bool) (o : list (string * json)) :
  List.NoDup (map fst o) -> List.NoDup (map fst (List.filter f o)).
Proof.
  induction o as [|m o IH]; simpl; intros H; [constructor|].
  inversion H as [|? ? Hnin Hnd]; subst.
  destruct (f m); simpl; [constructor|]; auto.
  intros Hin. apply Hnin. apply in_map_iff in Hin as [x [Hx Hin]].
  apply filter_In in Hin as [Hin _]. apply in_map_iff. exists x. auto.
Qed.

Lemma well_formed_rest (names : list string) (o : list (string * json)) :
  well_formed (JObject o) -> well_formed (JObject (rest_properties names o)).
Proof.
  intros H. apply well_formed_JObject in H as [Hnd Hwf].
  apply well_formed_JObject. split.
  - apply NoDup_keys_filter. exact Hnd.
  - unfold rest_properties. rewrite !List.Forall_forall in *.
    intros x Hx. apply filter_In in Hx as [Hx _]. auto.
Qed.

Lemma well_formed_document (metadata : list (string * json))
    (nodes : list json) (globalVars : json) :
  well_formed (JObject metadata) -> Forall well_formed nodes ->
  well_formed globalVars ->
  well_formed (document metadata nodes globalVars).
Proof.
  intros Hm Hn Hg. apply well_formed_JObject. split.
  - apply distinct_NoDup. reflexivity.
  - constructor; [exact Hm|].
    constructor; [apply well_formed_JArray; exact Hn|].
    constructor; [exact Hg|constructor].
Qed.

Lemma resultJson_length (metadata : list (string * json)) (nodes : list json)
    (globalVars : json) :
  well_formed (JObject metadata) -> Forall well_formed nodes ->
  well_formed globalVars ->
  4 + need (JObject metadata) + need (JArray nodes) + need globalVars
    <= String.length (resultJson metadata nodes (Some globalVars)).
Proof.
  intros Hm Hn Hg. unfold resultJson, stringify_opt, stringify.
  pose proof (need_le_length _ Hm "") as H1.
  pose proof (need_le_length _ Hg "") as H2.
  pose proof (nodesJson_length _ Hn) as H3.
  revert H1 H2 H3.
  generalize (SerializeJSONProperty "" (JObject metadata)).
  generalize (SerializeJSONProperty "" globalVars).
  generalize (nodesJson nodes).
  generalize (need (JObject metadata)), (need globalVars), (need (JArray nodes)).
  intros a b c N G M H1 H2 H3. unfold quoted.
  rewrite !StringFacts.length_app. simpl. rewrite ?StringFacts.length_app.
  simpl. lia.
Qed.

(** The text the handler assembles reads back as the object of the three
    parts. *)
Theorem parse_resultJson (metadata : list (string * json)) (nodes : list json)
    (globalVars : json) :
  well_formed (JObject metadata) -> Forall well_formed nodes ->
  well_formed globalVars ->
  parse (resultJson metadata nodes (Some globalVars))
  = Some (document metadata nodes globalVars).
Proof.
  intros Hm Hn Hg. unfold parse.
  rewrite parse_value_resultJson; try assumption; [reflexivity|].
  pose proof (resultJson_length _ _ _ Hm Hn Hg). lia.
Qed.

End JsonProps.

(* ================================================================== *)
(** * Properties of the image download handler                         *)
(* ================================================================== *)

Module DownloadProps.
Import JS Json Server.

Lemma endsWith_spec (s suffix : string) :
  endsWith s suffix = true <-> exists stem, s = stem +:+ suffix.
Proof.
  unfold endsWith. split.
  - destruct (Nat.ltb_spec (String.length s) (String.length suffix)) as [|Hle];
      [discriminate|].
    intros H. apply String.eqb_eq in H.
    set (k := String.length s - String.length suffix) in *.
    exists (String.substring 0 k s). rewrite <- H.
    replace (String.length suffix) with (String.length s - k) by (unfold k; lia).
    apply StringFacts.substring_split. unfold k. lia.
  - intros [stem ->]. rewrite StringFacts.length_app.
    destruct (Nat.ltb_spec (String.length stem + String.length suffix)
                           (String.length suffix)) as [|_]; [lia|].
    replace (String.length stem + String.length suffix - String.length suffix)
      with (String.length stem) by lia.
    rewrite StringFacts.substring_app_r. apply String.eqb_refl.
Qed.

Lemma ToString_exn_carries_message (e : Exn) :
  exists before, ToString_exn e = before +:+ message_of e.
Proof.
  destruct e as [name msg|t]; simpl.
  - destruct (String.eqb name ""); [exists ""; reflexivity|].
    destruct (String.eqb_spec msg "") as [->|_].
    + exists name. symmetry. apply StringFacts.app_nil_r.
    + exists (name +:+ ": "). symmetry. apply StringFacts.app_assoc.
  - exists "". reflexivity.
Qed.

(** ** The partition of the requested nodes *)

Lemma imageFills_In (nodes : list ImageNode) (n : ImageNode) :
  In n (imageFills nodes) <-> In n nodes /\ truthy (imageRef n) = true.
Proof.
  unfold imageFills. rewrite filter_In, negb_involutive. reflexivity.
Qed.

Lemma renderRequests_In (nodes : list ImageNode) (r : Render.Request) :
  In r (renderRequests nodes) <->
  exists n, In n nodes /\ truthy (imageRef n) = false /\ r = renderRequest n.
Proof.
  unfold renderRequests. rewrite in_map_iff. split.
  - intros [n [<- H]]. apply filter_In in H as [H1 H2].
    exists n. apply negb_true_iff in H2. auto.
  - intros [n [H1 [H2 ->]]]. exists n. split; [reflexivity|].
    apply filter_In. split; [exact H1|]. rewrite H2. reflexivity.
Qed.

Lemma batches_length (nodes : list ImageNode) :
  length (imageFills nodes) + length (renderRequests nodes) = length nodes.
Proof.
  unfold imageFills, renderRequests. rewrite length_map.
  induction nodes as [|n nodes IH]; simpl; [reflexivity|].
  destruct (truthy (imageRef n)); simpl; lia.
Qed.

Lemma batches_permutation (nodes : list ImageNode) :
  Permutation
    (imageFills nodes
     ++ List.filter (fun n => negb (truthy (imageRef n))) nodes)
    nodes.
Proof.
  unfold imageFills.
  induction nodes as [|n nodes IH]; simpl; [constructor|].
  destruct (truthy (imageRef n)); simpl.
  - constructor. exact IH.
  - symmetry. apply Permutation_cons_app. symmetry. exact IH.
Qed.

Lemma downloads_joined (svc : FigmaService) (fileKey : string)
    (nodes : list ImageNode) (localPath : string) (f r : list Value) :
  outcome (getImageFills svc fileKey (imageFills nodes) localPath) = Ok f ->
  outcome (getImages svc fileKey (renderRequests nodes) localPath) = Ok r ->
  downloads svc fileKey nodes localPath = Ok (f ++ r).
Proof.
  intros Hf Hr. unfold downloads, all2. rewrite Hf, Hr. reflexivity.
Qed.

(** ** The success flag *)

Lemma find_falsy (p : Value -> bool) (ds : list Value) :
  (forall v, p v = true -> ToBoolean v = false) ->
  ToBoolean (find p ds) = false.
Proof.
  intros Hp. unfold find. destruct (List.find p ds) as [v|] eqn:E.
  - apply find_some in E as [_ E]. apply Hp. exact E.
  - reflexivity.
Qed.

(** Whatever the downloads are, the flag is set: the element [find]
    returns is one that failed, or [undefined], and either is falsy. *)
Lemma saveSuccess_always (ds : list Value) : saveSuccess ds = true.
Proof.
  unfold saveSuccess. rewrite find_falsy; [reflexivity|].
  intros v H. apply negb_true_iff in H. exact H.
Qed.

Lemma download_figma_images_resolved (svc : FigmaService) (fileKey : string)
    (nodes : list ImageNode) (localPath : string) (ds : list Value) :
  downloads svc fileKey nodes localPath = Ok ds ->
  download_figma_images svc fileKey nodes localPath =
    {| logged := [];
       returned := Ok (text_result
         ("Success, " +:+ length_to_string (length ds)
          +:+ " images downloaded: " +:+ join ", " ds)) |}.
Proof.
  intros H. unfold download_figma_images, download_figma_images_try.
  rewrite H. simpl. unfold download_text. rewrite saveSuccess_always.
  reflexivity.
Qed.

(** C7: a requested node without an [imageRef] becomes a render request
    whose file type is svg exactly when its file name ends with .svg, and png
    otherwise; the render requests are those of such nodes and no others. *)
Theorem render_request_file_type (nodes : list ImageNode) (n : ImageNode) :
  In n nodes ->
  truthy (imageRef n) = false ->
  In (renderRequest n) (renderRequests nodes) /\
  Render.nodeId (renderRequest n) = nodeId n /\
  Render.fileName (renderRequest n) = fileName n /\
  (Render.fileType (renderRequest n) = svg <->
   endsWith (fileName n) ".svg" = true) /\
  (Render.fileType (renderRequest n) = png <->
   endsWith (fileName n) ".svg" = false) /\
  (endsWith (fileName n) ".svg" = true <->
   exists stem, fileName n = stem +:+ ".svg") /\
  (forall r, In r (renderRequests nodes) ->
     exists m, In m nodes /\ truthy (imageRef m) = false /\ r = renderRequest m).
Proof.
  intros Hin Href. split; [|split; [|split; [|split; [|split; [|split]]]]].
  - apply renderRequests_In. exists n. auto.
  - reflexivity.
  - reflexivity.
  - simpl. destruct (endsWith (fileName n) ".svg"); split; congruence.
  - simpl. destruct (endsWith (fileName n) ".svg"); split; congruence.
  - apply endsWith_spec.
  - intros r Hr. apply renderRequests_In. exact Hr.
Qed.

Lemma render_request_file_type_witness :
  Render.fileType (renderRequest icon) = svg /\
  Render.fileType (renderRequest banner) = png /\
  Render.fileType (renderRequest blank_ref) = png /\
  In (renderRequest blank_ref) (renderRequests [icon; photo; banner; blank_ref]).
Proof.
  split; [|split; [|split]].
  - apply (render_request_file_type [icon; photo; banner; blank_ref] icon);
      [simpl; tauto|reflexivity|reflexivity].
  - apply (render_request_file_type [icon; photo; banner; blank_ref] banner);
      [simpl; tauto|reflexivity|reflexivity].
  - apply (render_request_file_type [icon; photo; banner; blank_ref] blank_ref);
      [simpl; tauto|reflexivity|reflexivity].
  - apply (render_request_file_type [icon; photo; banner; blank_ref] blank_ref);
      [simpl; tauto|reflexivity].
Defined.

Lemma Promise_all2_outcome {A B : Type} (p : Promise A) (q : Promise B) :
  outcome (Promise_all2 p q) = all2 p q.
Proof.
  unfold Promise_all2, all2.
  destruct (outcome p), (outcome q); try reflexivity.
  destruct (Nat.ltb (settled_at q) (settled_at p)); reflexivity.
Qed.

Lemma downloads_steps_eq (svc : FigmaService) (fileKey : string)
    (nodes : list ImageNode) (localPath : string) :
  downloads_steps svc fileKey nodes localPath
  = ([CallGetImageFills fileKey (imageFills nodes) localPath;
      CallGetImages fileKey (renderRequests nodes) localPath;
      Await (settled_at
               (Promise_all2
                  (getImageFills svc fileKey (imageFills nodes) localPath)
                  (getImages svc fileKey (renderRequests nodes) localPath)))],
     downloads svc fileKey nodes localPath).
Proof.
  unfold downloads_steps, downloads, call_getImageFills, call_getImages,
    await, then_, async_bind. simpl.
  rewrite Promise_all2_outcome. reflexivity.
Qed.

(** C8: the requested nodes are split into two batches, those with an
    [imageRef] for the fill download and the others for the render download;
    every node is in exactly one of them and the two sizes add up to the
    number of nodes.  When both calls resolve the joined list is the fill
    results followed by the render results; with one result for each request
    its length is the number of requested nodes.

    The two calls are issued concurrently and joined: both are made, one
    after the other and whatever becomes of the first, before the one
    [await], which is on the two promises together.  So the handler has its
    downloads when the later of the two calls has resolved; a rejection of
    one call ends the wait at once, without the other; and of two rejections
    it is the earlier one that the handler sees, also when that is the
    rejection of the render call, which was made second. *)
Theorem download_batches_partition (svc : FigmaService) (fileKey : string)
    (nodes : list ImageNode) (localPath : string) :
  (forall n, In n (imageFills nodes) <->
             In n nodes /\ truthy (imageRef n) = true) /\
  (forall r, In r (renderRequests nodes) <->
             exists n, In n nodes /\ truthy (imageRef n) = false
                       /\ r = renderRequest n) /\
  Permutation
    (imageFills nodes
     ++ List.filter (fun n => negb (truthy (imageRef n))) nodes) nodes /\
  length (imageFills nodes) + length (renderRequests nodes) = length nodes /\
  (forall f r,
     outcome (getImageFills svc fileKey (imageFills nodes) localPath) = Ok f ->
     outcome (getImages svc fileKey (renderRequests nodes) localPath) = Ok r ->
     downloads svc fileKey nodes localPath = Ok (f ++ r) /\
     (one_result_per_request svc -> length (f ++ r) = length nodes)) /\
  (exists waited,
     downloads_steps svc fileKey nodes localPath
     = ([CallGetImageFills fileKey (imageFills nodes) localPath;
         CallGetImages fileKey (renderRequests nodes) localPath;
         Await waited],
        downloads svc fileKey nodes localPath) /\
     (forall f r,
        outcome (getImageFills svc fileKey (imageFills nodes) localPath) = Ok f ->
        outcome (getImages svc fileKey (renderRequests nodes) localPath) = Ok r ->
        waited
        = Nat.max
            (settled_at (getImageFills svc fileKey (imageFills nodes) localPath))
            (settled_at (getImages svc fileKey (renderRequests nodes) localPath)))
     /\
     (forall e r,
        outcome (getImageFills svc fileKey (imageFills nodes) localPath) = Throw e ->
        outcome (getImages svc fileKey (renderRequests nodes) localPath) = Ok r ->
        downloads svc fileKey nodes localPath = Throw e /\
        waited
        = settled_at (getImageFills svc fileKey (imageFills nodes) localPath))
     /\
     (forall f e,
        outcome (getImageFills svc fileKey (imageFills nodes) localPath) = Ok f ->
        outcome (getImages svc fileKey (renderRequests nodes) localPath) = Throw e ->
        downloads svc fileKey nodes localPath = Throw e /\
        waited
        = settled_at (getImages svc fileKey (renderRequests nodes) localPath))
     /\
     (forall e1 e2,
        outcome (getImageFills svc fileKey (imageFills nodes) localPath) = Throw e1 ->
        outcome (getImages svc fileKey (renderRequests nodes) localPath) = Throw e2 ->
        (settled_at (getImages svc fileKey (renderRequests nodes) localPath)
         < settled_at (getImageFills svc fileKey (imageFills nodes) localPath) ->
         downloads svc fileKey nodes localPath = Throw e2 /\
         waited
         = settled_at (getImages svc fileKey (renderRequests nodes) localPath))
        /\
        (settled_at (getImageFills svc fileKey (imageFills nodes) localPath)
         <= settled_at (getImages svc fileKey (renderRequests nodes) localPath) ->
         downloads svc fileKey nodes localPath = Throw e1 /\
         waited
         = settled_at (getImageFills svc fileKey (imageFills nodes) localPath)))).
Proof.
  split; [|split; [|split; [|split; [|split]]]].
  - intros n. apply imageFills_In.
  - intros r. apply renderRequests_In.
  - apply batches_permutation.
  - apply batches_length.
  - intros f r Hf Hr. split; [apply downloads_joined; assumption|].
    intros Hs. destruct (Hs fileKey localPath) as [H1 H2].
    rewrite length_app, (H1 _ _ Hf), (H2 _ _ Hr). apply batches_length.
  - eexists. split; [apply downloads_steps_eq|].
    unfold downloads, Promise_all2, all2.
    set (fills := getImageFills svc fileKey (imageFills nodes) localPath).
    set (renders := getImages svc fileKey (renderRequests nodes) localPath).
    split; [|split; [|split]].
    + intros f r Hf Hr. rewrite Hf, Hr. reflexivity.
    + intros e r Hf Hr. rewrite Hf, Hr. split; reflexivity.
    + intros f e Hf Hr. rewrite Hf, Hr. split; reflexivity.
    + intros e1 e2 Hf Hr. rewrite Hf, Hr. split; intros Ht.
      * apply Nat.ltb_lt in Ht. rewrite Ht. split; reflexivity.
      * apply Nat.ltb_ge in Ht. rewrite Ht. split; reflexivity.
Qed.

Lemma saving_service_one_result : one_result_per_request saving_service.
Proof.
  intros fileKey localPath. split; intros reqs rs H; simpl in H;
    injection H as <-; apply length_map.
Qed.

Lemma download_batches_partition_witness :
  (downloads saving_service "abc123" [icon; photo; banner] "/tmp/out" =
     Ok ([VString "/tmp/out/photo.png"]
         ++ [VString "/tmp/out/icon.svg"; VString "/tmp/out/banner.png"]) /\
   length ([VString "/tmp/out/photo.png"]
           ++ [VString "/tmp/out/icon.svg"; VString "/tmp/out/banner.png"])
     = length [icon; photo; banner]) /\
  downloads_steps rejecting_service "abc123" [icon; photo; banner] "/tmp/out"
  = ([CallGetImageFills "abc123" [photo] "/tmp/out";
      CallGetImages "abc123" [renderRequest icon; renderRequest banner]
        "/tmp/out";
      Await 1],
     Throw (Error "Failed to make request to Figma API: Forbidden")).
Proof.
  split.
  - destruct (download_batches_partition saving_service "abc123"
                [icon; photo; banner] "/tmp/out") as [_ [_ [_ [_ [H _]]]]].
    destruct (H [VString "/tmp/out/photo.png"]
                [VString "/tmp/out/icon.svg"; VString "/tmp/out/banner.png"])
      as [H1 H2]; [reflexivity|reflexivity|].
    split; [exact H1|]. apply H2. apply saving_service_one_result.
  - destruct (download_batches_partition rejecting_service "abc123"
                [icon; photo; banner] "/tmp/out")
      as [_ [_ [_ [_ [_ [waited [Hsteps [_ [_ [_ H]]]]]]]]]].
    destruct (H (Error "fetch failed")
                (Error "Failed to make request to Figma API: Forbidden"))
      as [H1 _]; [reflexivity|reflexivity|].
    destruct H1 as [Hd Hw]; [simpl; lia|].
    rewrite Hsteps, Hd, Hw. reflexivity.
Defined.

(** C10: called with no nodes, the handler returns a success envelope, no
    [isError] flag, whose text begins with the words of a success for 0
    images, given a service that resolves both (empty) batches with one result
    for each request, that is with none. *)
Theorem download_nothing_is_success (svc : FigmaService)
    (fileKey localPath : string) :
  one_result_per_request svc ->
  (exists f, outcome (getImageFills svc fileKey [] localPath) = Ok f) ->
  (exists r, outcome (getImages svc fileKey [] localPath) = Ok r) ->
  download_figma_images svc fileKey [] localPath =
    {| logged := [];
       returned := Ok {| isError := None;
                         content := [{| type := "text";
                                        text := "Success, 0 images downloaded: " |}] |} |}
  /\ String.prefix "Success, 0 images downloaded"
                   "Success, 0 images downloaded: " = true.
Proof.
  intros Hs [f Hf] [r Hr]. split; [|reflexivity].
  destruct (Hs fileKey localPath) as [H1 H2].
  pose proof (H1 _ _ Hf) as Lf. pose proof (H2 _ _ Hr) as Lr.
  destruct f; [|discriminate]. destruct r; [|discriminate].
  rewrite (download_figma_images_resolved svc fileKey [] localPath []).
  - reflexivity.
  - apply (downloads_joined svc fileKey [] localPath [] []); assumption.
Qed.

Lemma download_nothing_is_success_witness :
  download_figma_images saving_service "abc123" [] "/tmp/out" =
    {| logged := [];
       returned := Ok {| isError := None;
                         content := [{| type := "text";
                                        text := "Success, 0 images downloaded: " |}] |} |}
  /\ String.prefix "Success, 0 images downloaded"
                   "Success, 0 images downloaded: " = true.
Proof.
  apply (download_nothing_is_success saving_service "abc123" "/tmp/out").
  - apply saving_service_one_result.
  - eexists. reflexivity.
  - eexists. reflexivity.
Defined.

(** C1 does not hold of the code, which reports success whatever the
    downloads returned: one node is requested, its download yields null, and
    the handler answers with the success text for 1 image, not with the
    failure text. *)
Lemma failed_download_reported_as_success :
  downloads failing_service "abc123" [icon] "/tmp/out" = Ok [VNull] /\
  failures [VNull] = 1 /\
  saveSuccess [VNull] = true /\
  returned (download_figma_images failing_service "abc123" [icon] "/tmp/out") =
    Ok {| isError := None;
          content := [{| type := "text";
                         text := "Success, 1 images downloaded: " |}] |}.
Proof. repeat split. Qed.

End DownloadProps.

(* ================================================================== *)
(** * Properties of the handlers: errors and the document text         *)
(* ================================================================== *)

Module HandlerProps.
Import JS Json Server.

Lemma error_text_carries_message (prefix : string) (e : Exn) :
  exists before, prefix +:+ ToString_exn e = before +:+ message_of e.
Proof.
  destruct (DownloadProps.ToString_exn_carries_message e) as [b ->].
  exists (prefix +:+ b). symmetry. apply StringFacts.app_assoc.
Qed.

Lemma get_figma_data_caught (svc : FigmaService) (fileKey : string)
    (nodeId : option string) (depth : option number) (e : Exn) :
  snd (get_figma_data_try svc fileKey nodeId depth) = Throw e ->
  returned (get_figma_data svc fileKey nodeId depth)
  = Ok (error_result ("Error fetching file: " +:+ ToString_exn e)).
Proof.
  unfold get_figma_data, try_catch_logged.
  destruct (get_figma_data_try svc fileKey nodeId depth) as [logs [r|e']];
    simpl; [discriminate|].
  intros [= ->]. reflexivity.
Qed.

Lemma download_figma_images_caught (svc : FigmaService) (fileKey : string)
    (nodes : list ImageNode) (localPath : string) (e : Exn) :
  snd (download_figma_images_try svc fileKey nodes localPath) = Throw e ->
  returned (download_figma_images svc fileKey nodes localPath)
  = Ok (error_result ("Error downloading images: " +:+ ToString_exn e)).
Proof.
  unfold download_figma_images, try_catch_logged.
  destruct (download_figma_images_try svc fileKey nodes localPath)
    as [logs [r|e']]; simpl; [discriminate|].
  intros [= ->]. reflexivity.
Qed.

Lemma get_figma_data_returns (svc : FigmaService) (fileKey : string)
    (nodeId : option string) (depth : option number) :
  exists result, returned (get_figma_data svc fileKey nodeId depth) = Ok result.
Proof.
  unfold get_figma_data, try_catch_logged.
  destruct (get_figma_data_try svc fileKey nodeId depth) as [logs [r|e]];
    eexists; reflexivity.
Qed.

Lemma download_figma_images_returns (svc : FigmaService) (fileKey : string)
    (nodes : list ImageNode) (localPath : string) :
  exists result,
    returned (download_figma_images svc fileKey nodes localPath) = Ok result.
Proof.
  unfold download_figma_images, try_catch_logged.
  destruct (download_figma_images_try svc fileKey nodes localPath)
    as [logs [r|e]]; eexists; reflexivity.
Qed.

(** C2: whatever is thrown inside the [try] block of a tool handler
    ([get_figma_data] or [download_figma_images]), the handler returns an
    envelope with [isError] set to true and one text block that carries the
    message of what was thrown; a handler never throws, it returns an envelope
    in every case. *)
Theorem handler_exception_becomes_error_envelope (svc : FigmaService)
    (fileKey : string) (nodeId : option string) (depth : option number)
    (nodes : list ImageNode) (localPath : string) :
  (forall e,
     snd (get_figma_data_try svc fileKey nodeId depth) = Throw e ->
     returned (get_figma_data svc fileKey nodeId depth)
     = Ok {| isError := Some true;
             content := [{| type := "text";
                            text := "Error fetching file: " +:+ ToString_exn e |}] |}
     /\ exists before,
          "Error fetching file: " +:+ ToString_exn e = before +:+ message_of e) /\
  (forall e,
     snd (download_figma_images_try svc fileKey nodes localPath) = Throw e ->
     returned (download_figma_images svc fileKey nodes localPath)
     = Ok {| isError := Some true;
             content := [{| type := "text";
                            text := "Error downloading images: "
                                    +:+ ToString_exn e |}] |}
     /\ exists before,
          "Error downloading images: " +:+ ToString_exn e
          = before +:+ message_of e) /\
  (exists result,
     returned (get_figma_data svc fileKey nodeId depth) = Ok result) /\
  (exists result,
     returned (download_figma_images svc fileKey nodes localPath) = Ok result).
Proof.
  split; [|split; [|split]].
  - intros e H. split; [apply get_figma_data_caught; exact H|].
    apply error_text_carries_message.
  - intros e H. split; [apply download_figma_images_caught; exact H|].
    apply error_text_carries_message.
  - apply get_figma_data_returns.
  - apply download_figma_images_returns.
Qed.

Lemma handler_exception_becomes_error_envelope_witness :
  returned (get_figma_data rejecting_service "abc123" (Some "1:2") None)
  = Ok {| isError := Some true;
          content := [{| type := "text";
                         text := "Error fetching file: Error: Failed to make request to Figma API: Forbidden" |}] |}
  /\
  returned (download_figma_images rejecting_service "abc123" [icon; photo] "/tmp/out")
  = Ok {| isError := Some true;
          content := [{| type := "text";
                         text := "Error downloading images: Error: Failed to make request to Figma API: Forbidden" |}] |}.
Proof.
  destruct (handler_exception_becomes_error_envelope rejecting_service "abc123"
              (Some "1:2") None [icon; photo] "/tmp/out") as [H1 [H2 _]].
  split.
  - apply (H1 (Error "Failed to make request to Figma API: Forbidden")).
    reflexivity.
  - apply (H2 (Error "Failed to make request to Figma API: Forbidden")).
    reflexivity.
Defined.

Lemma get_figma_data_resolved (svc : FigmaService) (fileKey : string)
    (nodeId : option string) (depth : option number)
    (file : SimplifiedDesign) (nodes : list json) :
  outcome (fetch svc fileKey nodeId depth) = Ok file ->
  get_property "nodes" file = Some (JArray nodes) ->
  returned (get_figma_data svc fileKey nodeId depth)
  = Ok (text_result
          (resultJson (rest_properties ["nodes"; "globalVars"] file) nodes
             (get_property "globalVars" file))).
Proof.
  intros Hf Hn. unfold get_figma_data, get_figma_data_try.
  rewrite Hf, Hn. reflexivity.
Qed.

(** C6: when the design is fetched, the handler returns one text block; its
    text, put together from the nodes printed one by one, parses to the same
    JSON value as the direct serialisation of the object with the properties
    metadata, nodes and globalVars, namely to that object, where metadata has
    exactly the top-level properties of the design other than nodes and
    globalVars. *)
Theorem get_figma_data_text_parses_as_document (svc : FigmaService)
    (fileKey : string) (nodeId : option string) (depth : option number)
    (file : SimplifiedDesign) (nodes : list json) (globalVars : json) :
  outcome (fetch svc fileKey nodeId depth) = Ok file ->
  well_formed (JObject file) ->
  get_property "nodes" file = Some (JArray nodes) ->
  get_property "globalVars" file = Some globalVars ->
  exists text metadata,
    returned (get_figma_data svc fileKey nodeId depth)
    = Ok {| isError := None;
            content := [{| type := "text"; text := text |}] |} /\
    parse text = Some (document metadata nodes globalVars) /\
    parse (stringify (document metadata nodes globalVars))
    = Some (document metadata nodes globalVars) /\
    (forall k v, In (k, v) metadata <->
                 In (k, v) file /\ k <> "nodes" /\ k <> "globalVars").
Proof.
  intros Hf Hwf Hn Hg.
  exists (resultJson (rest_properties ["nodes"; "globalVars"] file) nodes
            (Some globalVars)),
         (rest_properties ["nodes"; "globalVars"] file).
  pose proof (JsonProps.well_formed_rest ["nodes"; "globalVars"] file Hwf) as Hm.
  pose proof (JsonProps.well_formed_property _ _ _ Hwf Hn) as Hns.
  apply JsonProps.well_formed_JArray in Hns.
  pose proof (JsonProps.well_formed_property _ _ _ Hwf Hg) as Hgv.
  split; [|split; [|split]].
  - rewrite (get_figma_data_resolved _ _ _ _ _ _ Hf Hn), Hg. reflexivity.
  - apply JsonProps.parse_resultJson; assumption.
  - apply JsonProps.parse_stringify.
    apply JsonProps.well_formed_document; assumption.
  - intros k v. rewrite JsonProps.rest_properties_In. simpl.
    intuition congruence.
Qed.

Lemma sample_design_well_formed : well_formed (JObject sample_design).
Proof. apply JsonProps.well_formedb_sound. reflexivity. Qed.

Lemma get_figma_data_text_parses_as_document_witness :
  exists text metadata,
    returned (get_figma_data saving_service "abc123" None None)
    = Ok {| isError := None;
            content := [{| type := "text"; text := text |}] |} /\
    parse text
    = Some (document metadata
              [JObject [("id", JString "1:2"); ("name", JString "Frame");
                        ("opacity", JNumber "0.5");
                        ("children", JArray [JObject [("id", JString "1:3")]])];
               JObject [("id", JString "4:5"); ("visible", JBool false)]]
              (JObject [("styles",
                         JObject [("fill_A1", JArray [JString "#FFFFFF"])])])).
Proof.
  destruct (get_figma_data_text_parses_as_document saving_service "abc123" None
              None sample_design
              [JObject [("id", JString "1:2"); ("name", JString "Frame");
                        ("opacity", JNumber "0.5");
                        ("children", JArray [JObject [("id", JString "1:3")]])];
               JObject [("id", JString "4:5"); ("visible", JBool false)]]
              (JObject [("styles",
                         JObject [("fill_A1", JArray [JString "#FFFFFF"])])]))
    as [text [metadata [H1 [H2 _]]]].
  - reflexivity.
  - exact sample_design_well_formed.
  - reflexivity.
  - reflexivity.
  - exists text, metadata. split; assumption.
Defined.

End HandlerProps.

(* ================================================================== *)
(** * More on the configuration loader: masking and decimal ports *)
(* ================================================================== *)

Module ConfigMore.
Import JS Config.

(** ** [maskApiKey] *)

Lemma substring_length (s : string) :
  forall n m, n + m <= String.length s ->
              String.length (String.substring n m s) = m.
Proof.
  induction s as [|c s IH]; intros n m H; simpl in *.
  - destruct n, m; simpl; lia.
  - destruct n as [|n].
    + destruct m as [|m]; simpl; [reflexivity|]. rewrite IH; lia.
    + apply IH. lia.
Qed.

(** X1: [maskApiKey] shows at most the last four characters of a key: a key
    of up to four characters is masked whole, and a longer key is replaced by
    four stars followed by its last four characters; the result is never
    longer than eight characters. *)
Theorem maskApiKey_shows_last_four_only (key : string) :
  ((String.length key <= 4 /\ maskApiKey key = "****") \/
   (4 < String.length key /\
    exists hidden shown,
      key = hidden +:+ shown /\ String.length shown = 4 /\
      hidden <> "" /\ maskApiKey key = "****" +:+ shown)) /\
  String.length (maskApiKey key) <= 8.
Proof.
  unfold maskApiKey, slice_last.
  destruct (Nat.leb_spec (String.length key) 4) as [Hle|Hgt].
  - split; [left; split; [exact Hle|reflexivity]|simpl; lia].
  - assert (String.length
              (String.substring (String.length key - 4) 4 key) = 4) as Hlen.
    { apply substring_length. lia. }
    split.
    + right. split; [exact Hgt|].
      exists (String.substring 0 (String.length key - 4) key),
             (String.substring (String.length key - 4) 4 key).
      split; [|split; [exact Hlen|split; [|reflexivity]]].
      * pose proof (StringFacts.substring_split key (String.length key - 4)) as H.
        replace (String.length key - (String.length key - 4)) with 4 in H by lia.
        apply H. lia.
      * intros E. apply (f_equal String.length) in E.
        rewrite substring_length in E by lia. simpl in E. lia.
    + rewrite StringFacts.length_app, Hlen. simpl. lia.
Qed.

(** ** A PORT of decimal digits *)

Lemma rev_app_rev (s t u : string) :
  String.rev_app (String.rev_app s t) u = String.rev_app t (s +:+ u).
Proof.
  revert t u. induction s as [|c s IH]; intros t u; simpl; [reflexivity|].
  rewrite IH. reflexivity.
Qed.

Lemma rev_rev (s : string) : String.rev (String.rev s) = s.
Proof.
  unfold String.rev. rewrite rev_app_rev. simpl. apply StringFacts.app_nil_r.
Qed.

Lemma all_chars_rev_app (p : ascii -> bool) (s t : string) :
  all_chars p (String.rev_app s t) = all_chars p s && all_chars p t.
Proof.
  revert t. induction s as [|c s IH]; intros t; simpl; [reflexivity|].
  rewrite IH. simpl. destruct (p c), (all_chars p s); reflexivity.
Qed.

Lemma all_chars_rev (p : ascii -> bool) (s : string) :
  all_chars p (String.rev s) = all_chars p s.
Proof. unfold String.rev. rewrite all_chars_rev_app. simpl. apply andb_true_r. Qed.

(** What a decimal digit is not. *)
Lemma decimal_digit_facts (c : ascii) :
  is_decimal_digit c = true ->
  is_StrWhiteSpaceChar c = false /\
  Ascii.eqb c "x" = false /\ Ascii.eqb c "X" = false /\
  Ascii.eqb c "o" = false /\ Ascii.eqb c "O" = false /\
  Ascii.eqb c "b" = false /\ Ascii.eqb c "B" = false.
Proof.
  destruct c as [[] [] [] [] [] [] [] []]; vm_compute; intros H;
    try discriminate; repeat split.
Qed.

Lemma trim_start_digits (s : string) :
  all_chars is_decimal_digit s = true -> trim_start s = s.
Proof.
  destruct s as [|c s]; simpl; [reflexivity|]. intros H.
  apply andb_true_iff in H as [H _].
  apply decimal_digit_facts in H as [-> _]. reflexivity.
Qed.

Lemma trim_digits (s : string) :
  all_chars is_decimal_digit s = true -> trim s = s.
Proof.
  intros H. unfold trim. rewrite (trim_start_digits s H).
  rewrite trim_start_digits by (rewrite all_chars_rev; exact H).
  apply rev_rev.
Qed.

(** A run of digits that reaches the end of the string is the whole of it. *)
Lemma digits_acc_whole (s : string) :
  forall acc n v m,
    digits_acc 10 s acc n = (v, m, EmptyString) ->
    all_chars is_decimal_digit s = true.
Proof.
  induction s as [|c s IH]; intros acc n v m; simpl; [reflexivity|].
  unfold is_decimal_digit. destruct (digit_value 10 c) as [d|].
  - intros H. simpl. eapply IH. exact H.
  - discriminate.
Qed.

Lemma all_digits_shape (s : string) (v : N) :
  all_digits 10 s = Some v ->
  all_chars is_decimal_digit s = true /\
  exists k, digits 10 s = (v, S k, EmptyString).
Proof.
  unfold all_digits. destruct (digits 10 s) as [[v' m] r] eqn:E.
  destruct m as [|k]; [discriminate|]. destruct r; [|discriminate].
  intros [= ->]. split; [|exists k; reflexivity].
  eapply digits_acc_whole. exact E.
Qed.

(** A string of decimal digits is no other kind of literal. *)
Lemma digits_not_other_literal (s : string) :
  all_chars is_decimal_digit s = true ->
  NonDecimalIntegerLiteral s = None /\ sign s = (false, s) /\
  String.eqb s "Infinity" = false.
Proof.
  destruct s as [|a s]; [intros _; repeat split|].
  simpl. intros H. apply andb_true_iff in H as [Ha Hs].
  assert (NonDecimalIntegerLiteral (String "0" s) = None) as Hz.
  { destruct s as [|b s]; [reflexivity|]. simpl in Hs.
    apply andb_true_iff in Hs as [Hb _].
    apply decimal_digit_facts in Hb as (_ & B1 & B2 & B3 & B4 & B5 & B6).
    simpl. rewrite B1, B2, B3, B4, B5, B6. reflexivity. }
  revert Ha Hz.
  destruct a as [[] [] [] [] [] [] [] []]; vm_compute is_decimal_digit;
    intros Ha Hz; try discriminate Ha; repeat split; exact Hz.
Qed.

Lemma StringToNumber_digits (s : string) (v : N) :
  all_digits 10 s = Some v ->
  StringToNumber s = RoundMVResult false (inject_Z (Z.of_N v)).
Proof.
  intros H. apply all_digits_shape in H as [Hd [k Hk]].
  destruct (digits_not_other_literal s Hd) as (H1 & H2 & H3).
  assert (s <> "") as Hne.
  { intros ->. vm_compute in Hk. discriminate. }
  unfold StringToNumber. rewrite (trim_digits s Hd).
  destruct (String.eqb_spec s "") as [E|_]; [contradiction|].
  rewrite H1, H2, H3. unfold StrUnsignedDecimalLiteral. rewrite Hk.
  simpl. f_equal. unfold Qmult, inject_Z. cbn. rewrite Z.mul_1_r.
  reflexivity.
Qed.

(** *** Rounding leaves an integer below 2^53 as it is *)

Lemma pow2_nonneg (k : Z) : (0 <= k)%Z -> (pow2 k == inject_Z (2 ^ k))%Q.
Proof. intros Hk. unfold pow2. symmetry. apply Zpower_Qpower. exact Hk. Qed.

Lemma pow2_pos (k : Z) : (0 < pow2 k)%Q.
Proof. unfold pow2. apply Qpower_0_lt. reflexivity. Qed.

Lemma round_half_even_Z (q : Q) (k : Z) :
  (q == inject_Z k)%Q -> round_half_even q = k.
Proof.
  intros Hq. unfold round_half_even.
  assert (Hfl : Qfloor q = k) by (rewrite Hq; apply Qfloor_Z).
  rewrite Hfl.
  assert (Hc : (q - inject_Z k ?= 1 # 2)%Q = Lt).
  { rewrite Hq. apply Qlt_alt.
    assert (E : (inject_Z k - inject_Z k == 0)%Q) by ring.
    rewrite E. reflexivity. }
  rewrite Hc. reflexivity.
Qed.

Lemma floor_log2_Z (v : Z) : (0 < v)%Z -> floor_log2 (inject_Z v) = Z.log2 v.
Proof.
  intros Hv. unfold floor_log2. cbn [Qnum Qden inject_Z].
  change (Z.log2 (Z.pos 1)) with 0%Z. rewrite Z.sub_0_r.
  assert (H : Qle_bool (pow2 (Z.log2 v)) (inject_Z v) = true).
  { apply Qle_bool_iff. rewrite pow2_nonneg by apply Z.log2_nonneg.
    rewrite <- Zle_Qle. apply Z.log2_spec. exact Hv. }
  change (v # 1) with (inject_Z v). rewrite H. reflexivity.
Qed.

Lemma RoundMVResult_exact (negative : bool) (v : Z) :
  (0 <= v < 2 ^ 53)%Z ->
  RoundMVResult negative (inject_Z v) = Finite negative (Qred (inject_Z v)).
Proof.
  intros [H0 H53]. unfold RoundMVResult.
  destruct (Qeq_bool (inject_Z v) 0%Q) eqn:Hz.
  - apply Qeq_bool_eq in Hz. f_equal. symmetry.
    change 0%Q with (Qred 0%Q). apply Qred_complete. exact Hz.
  - assert (Hv : (0 < v)%Z).
    { destruct (Z.eq_dec v 0%Z) as [->|]; [discriminate Hz | lia]. }
    rewrite floor_log2_Z by exact Hv.
    assert (He : (0 <= Z.log2 v <= 52)%Z).
    { split; [apply Z.log2_nonneg|].
      assert (Z.log2 v < 53)%Z by (apply Z.log2_lt_pow2; lia). lia. }
    rewrite Z.max_l by lia.
    set (k := (52 - Z.log2 v)%Z).
    replace (Z.log2 v - 52)%Z with (- k)%Z by (unfold k; lia).
    assert (Hk : (0 <= k)%Z) by (unfold k; lia).
    assert (Hinv : (pow2 (- k) * pow2 k == 1)%Q).
    { unfold pow2. rewrite <- Qpower_plus by discriminate.
      replace (- k + k)%Z with 0%Z by lia. reflexivity. }
    assert (Hnz : ~ (pow2 (- k) == 0)%Q).
    { intros E. pose proof (pow2_pos (- k)) as P. rewrite E in P.
      discriminate P. }
    assert (Hm : (inject_Z v / pow2 (- k) == inject_Z (v * 2 ^ k))%Q).
    { rewrite inject_Z_mult, <- pow2_nonneg by exact Hk.
      apply (Qmult_inj_r _ _ (pow2 (- k))); [exact Hnz|].
      rewrite Qmult_comm, Qmult_div_r by exact Hnz.
      rewrite <- Qmult_assoc, (Qmult_comm (pow2 k)), Hinv. ring. }
    rewrite (round_half_even_Z _ _ Hm).
    assert (Hval : (inject_Z (v * 2 ^ k) * pow2 (- k) == inject_Z v)%Q).
    { rewrite inject_Z_mult, <- pow2_nonneg by exact Hk.
      rewrite <- Qmult_assoc, (Qmult_comm (pow2 k)), Hinv. ring. }
    assert (Hlt : Qle_bool (pow2 1024)
                    (inject_Z (v * 2 ^ k) * pow2 (- k))%Q = false).
    { apply not_true_is_false. intros E. apply Qle_bool_iff in E.
      rewrite Hval, pow2_nonneg in E by lia. rewrite <- Zle_Qle in E.
      assert (2 ^ 53 < 2 ^ 1024)%Z by (apply Z.pow_lt_mono_r; lia). lia. }
    rewrite Hlt. f_equal. apply Qred_complete. exact Hval.
Qed.

Lemma StringToNumber_small_digits (s : string) (v : N) :
  all_digits 10 s = Some v -> (v < 2 ^ 53)%N -> StringToNumber s = of_N v.
Proof.
  intros Hd Hv. rewrite (StringToNumber_digits s v Hd).
  apply RoundMVResult_exact. split; [lia|].
  change (2 ^ 53)%Z with (Z.of_N (2 ^ 53)). lia.
Qed.

Lemma of_N_truthy (v : N) : v <> 0%N -> truthy_number (of_N v) = true.
Proof.
  intros H. unfold of_N. simpl. apply negb_true_iff.
  destruct (Qeq_bool (Qred (inject_Z (Z.of_N v))) 0) eqn:E; [|reflexivity].
  apply Qeq_bool_eq in E. rewrite Qred_correct in E.
  unfold Qeq in E. simpl in E. lia.
Qed.

(** X2: outside stdio mode and with FIGMA_API_KEY set, a PORT made of
    decimal digits only, whose value is not zero and is below 2^53 (every
    such integer is a double, so that [Number] does not round it), is the
    port returned; leading zeros do not matter. *)
Theorem getServerConfig_decimal_port (env : gmap string string) (s : string)
    (v : N) :
  truthy (env !! "FIGMA_API_KEY") = true ->
  env !! "PORT" = Some s ->
  all_digits 10 s = Some v ->
  v <> 0%N ->
  (v < 2 ^ 53)%N ->
  exists cfg, getServerConfig env false = Ok cfg /\ port cfg = of_N v.
Proof.
  intros Hk Hp Hd Hv Hlt. eexists.
  split; [apply ConfigProps.getServerConfig_with_key; exact Hk|].
  simpl. rewrite Hp. simpl. rewrite (StringToNumber_small_digits s v Hd Hlt).
  unfold or_number. rewrite (of_N_truthy v Hv). reflexivity.
Qed.

Lemma getServerConfig_decimal_port_witness :
  (exists cfg, getServerConfig (<["PORT" := "8080"]> env_key) false = Ok cfg
               /\ port cfg = of_N 8080) /\
  (exists cfg, getServerConfig (<["PORT" := "0443"]> env_key) false = Ok cfg
               /\ port cfg = of_N 443).
Proof.
  split.
  - apply (getServerConfig_decimal_port (<["PORT" := "8080"]> env_key) "8080");
      [reflexivity|reflexivity|reflexivity|discriminate|reflexivity].
  - apply (getServerConfig_decimal_port (<["PORT" := "0443"]> env_key) "0443");
      [reflexivity|reflexivity|reflexivity|discriminate|reflexivity].
Defined.

End ConfigMore.

(* ================================================================== *)
(** * More on the bootstrap: when the process serves *)
(* ================================================================== *)

Module IndexMore.
Import JS Config Index.

Lemma startServer_switch_stdio (env : gmap string string) (client : AztpClient)
    (mcpName : string) :
  serverMode env = "stdio" ->
  startServer_switch env client mcpName =
    ([NewStdioServerTransport; SecureConnect mcpName (stdio_options env)],
     secureConnect client mcpName (stdio_options env)).
Proof. intros H. unfold startServer_switch. rewrite H. reflexivity. Qed.

Lemma main_with_credentials (env : gmap string string) (client : AztpClient) :
  truthy (env !! "AZTP_API_KEY") = true ->
  truthy (env !! "MCP_NAME") = true ->
  main env client =
    match initialize client (default "" (env !! "AZTP_API_KEY"))
                            (default "" (env !! "MCP_NAME")) with
    | Throw error =>
        {| effects := [Initialize (default "" (env !! "AZTP_API_KEY"))
                                  (default "" (env !! "MCP_NAME"))];
           status := Uncaught error |}
    | Ok _ =>
        match startServer env client (default "" (env !! "MCP_NAME")) with
        | (effs, Resolved) =>
            {| effects := Initialize (default "" (env !! "AZTP_API_KEY"))
                                     (default "" (env !! "MCP_NAME")) :: effs;
               status := Serving |}
        | (effs, ProcessExit code) =>
            {| effects := Initialize (default "" (env !! "AZTP_API_KEY"))
                                     (default "" (env !! "MCP_NAME")) :: effs;
               status := Exited code |}
        | (effs, Rejected error) =>
            {| effects := Initialize (default "" (env !! "AZTP_API_KEY"))
                                     (default "" (env !! "MCP_NAME")) :: effs
                          ++ [ConsoleError "Failed to start server:" error];
               status := Exited 1 |}
        end
    end.
Proof. intros Ha Hm. unfold main. rewrite Ha, Hm. reflexivity. Qed.

Lemma startServer_never_rejects (env : gmap string string)
    (client : AztpClient) (mcpName : string) :
  snd (startServer env client mcpName) = Resolved \/
  snd (startServer env client mcpName) = ProcessExit 1.
Proof.
  unfold startServer.
  destruct (startServer_switch env client mcpName) as [effs [u|e]]; auto.
Qed.

(** X3: the process keeps serving exactly when both credentials of the
    module are set, the client is initialised, the mode is stdio and the
    secure connection is made; it has then initialised the client, created
    the stdio transport and connected it, in this order and nothing else.  In
    every other case the process ends with exit status 1: it never ends with
    status 0 or any other status. *)
Theorem main_serves_or_exits_with_1 (env : gmap string string)
    (client : AztpClient) :
  (status (main env client) = Serving <->
   truthy (env !! "AZTP_API_KEY") = true /\
   truthy (env !! "MCP_NAME") = true /\
   initialize client (default "" (env !! "AZTP_API_KEY"))
                     (default "" (env !! "MCP_NAME")) = Ok tt /\
   serverMode env = "stdio" /\
   secureConnect client (default "" (env !! "MCP_NAME")) (stdio_options env)
   = Ok tt) /\
  (status (main env client) = Serving ->
   effects (main env client) =
     [Initialize (default "" (env !! "AZTP_API_KEY"))
                 (default "" (env !! "MCP_NAME"));
      NewStdioServerTransport;
      SecureConnect (default "" (env !! "MCP_NAME")) (stdio_options env)]) /\
  (status (main env client) <> Serving ->
   exit_status (main env client) = Some 1%Z).
Proof.
  destruct (truthy (env !! "AZTP_API_KEY")) eqn:Ha.
  2:{ unfold main. rewrite Ha. simpl.
      split; [split; [discriminate|intros (H & _); discriminate]|].
      split; [discriminate|reflexivity]. }
  destruct (truthy (env !! "MCP_NAME")) eqn:Hm.
  2:{ unfold main. rewrite Ha, Hm. simpl.
      split; [split; [discriminate|intros (_ & H & _); discriminate]|].
      split; [discriminate|reflexivity]. }
  rewrite (main_with_credentials env client Ha Hm).
  destruct (initialize client _ _) as [[]|e] eqn:Hi.
  2:{ simpl. split; [split; [discriminate|intros (_ & _ & H & _); discriminate]|].
      split; [discriminate|reflexivity]. }
  destruct (String.eqb_spec (serverMode env) "stdio") as [Hs|Hs].
  - unfold startServer. rewrite (startServer_switch_stdio env client _ Hs).
    destruct (secureConnect client _ _) as [[]|e] eqn:Hc; simpl.
    + split; [split; [intros _; repeat split; assumption|reflexivity]|].
      split; [reflexivity|congruence].
    + split; [split; [discriminate|intros (_ & _ & _ & _ & H); discriminate]|].
      split; [discriminate|reflexivity].
  - rewrite (IndexProps.startServer_other_mode env client _ Hs). simpl.
    split; [split; [discriminate|intros (_ & _ & _ & H & _); contradiction]|].
    split; [discriminate|reflexivity].
Qed.

Lemma main_serves_or_exits_with_1_witness :
  status (main env_no_figma_key willing_client) = Serving /\
  effects (main env_no_figma_key willing_client) =
    [Initialize "aztp_key" "figma-mcp"; NewStdioServerTransport;
     SecureConnect "figma-mcp"
       {| trustDomain := "gptapps.ai"; hostname := "unknown";
          environment := "development" |}] /\
  exit_status (main env_no_figma_key refusing_client) = Some 1%Z.
Proof.
  destruct (main_serves_or_exits_with_1 env_no_figma_key willing_client)
    as [H1 [H2 _]].
  destruct (main_serves_or_exits_with_1 env_no_figma_key refusing_client)
    as [_ [_ H3]].
  assert (status (main env_no_figma_key willing_client) = Serving) as Hs.
  { apply H1. repeat split. }
  split; [exact Hs|]. split; [apply H2; exact Hs|].
  apply H3. discriminate.
Defined.

(** X4: what a failure of the secure-transport client leads to.  When
    [initialize] throws, the error is uncaught: the process ends with status
    1 and no channel was opened.  When [secureConnect] is rejected in stdio
    mode, the stdio transport has been created, the error is logged with the
    label of a failed start, and the process exits with status 1. *)
Theorem client_failure_ends_the_process (env : gmap string string)
    (client : AztpClient) (e : Exn) :
  truthy (env !! "AZTP_API_KEY") = true ->
  truthy (env !! "MCP_NAME") = true ->
  (initialize client (default "" (env !! "AZTP_API_KEY"))
                     (default "" (env !! "MCP_NAME")) = Throw e ->
   status (main env client) = Uncaught e /\
   exit_status (main env client) = Some 1%Z /\
   channel_opened (main env client) = false) /\
  (initialize client (default "" (env !! "AZTP_API_KEY"))
                     (default "" (env !! "MCP_NAME")) = Ok tt ->
   serverMode env = "stdio" ->
   secureConnect client (default "" (env !! "MCP_NAME")) (stdio_options env)
   = Throw e ->
   status (main env client) = Exited 1 /\
   channel_opened (main env client) = true /\
   In (ConsoleError "Failed to start server:" e) (effects (main env client))).
Proof.
  intros Ha Hm. rewrite (main_with_credentials env client Ha Hm). split.
  - intros Hi. rewrite Hi. repeat split.
  - intros Hi Hs Hc. rewrite Hi. unfold startServer.
    rewrite (startServer_switch_stdio env client _ Hs), Hc. simpl.
    repeat split. auto.
Qed.

Lemma client_failure_ends_the_process_witness :
  status (main env_no_figma_key broken_client)
  = Uncaught (Error "invalid API key") /\
  status (main env_no_figma_key refusing_client) = Exited 1 /\
  channel_opened (main env_no_figma_key refusing_client) = true.
Proof.
  split; [|split].
  - apply (client_failure_ends_the_process env_no_figma_key broken_client
             (Error "invalid API key")); reflexivity.
  - apply (client_failure_ends_the_process env_no_figma_key refusing_client
             (Error "identity verification failed")); reflexivity.
  - apply (client_failure_ends_the_process env_no_figma_key refusing_client
             (Error "identity verification failed")); reflexivity.
Defined.

Lemma or_default_insert_empty (env : gmap string string) (k d : string) :
  or_default (<[k := ""]> env !! k) d = or_default (delete k env !! k) d.
Proof. rewrite lookup_insert_eq, lookup_delete_eq. reflexivity. Qed.

(** X5: a variable SERVER_MODE that is set to the empty string selects the
    stdio mode exactly as an unset one does: the process behaves the same in
    both environments. *)
Theorem empty_server_mode_is_unset (env : gmap string string)
    (client : AztpClient) :
  main (<["SERVER_MODE" := ""]> env) client
  = main (delete "SERVER_MODE" env) client.
Proof.
  unfold main, startServer, startServer_switch, serverMode.
  rewrite or_default_insert_empty.
  rewrite !(lookup_insert_ne env "SERVER_MODE" "AZTP_API_KEY") by done.
  rewrite !(lookup_insert_ne env "SERVER_MODE" "MCP_NAME") by done.
  rewrite !(lookup_insert_ne env "SERVER_MODE" "HOSTNAME") by done.
  rewrite !(lookup_insert_ne env "SERVER_MODE" "NODE_ENV") by done.
  rewrite !(lookup_delete_ne env "SERVER_MODE" "AZTP_API_KEY") by done.
  rewrite !(lookup_delete_ne env "SERVER_MODE" "MCP_NAME") by done.
  rewrite !(lookup_delete_ne env "SERVER_MODE" "HOSTNAME") by done.
  rewrite !(lookup_delete_ne env "SERVER_MODE" "NODE_ENV") by done.
  reflexivity.
Qed.

End IndexMore.

(* ================================================================== *)
(** * More on the handlers: envelopes, batches and the nodes text *)
(* ================================================================== *)

Module HandlerMore.
Import JS Json Server.

Lemma get_figma_data_try_result (svc : FigmaService) (fileKey : string)
    (nodeId : option string) (depth : option number) (r : CallToolResult) :
  snd (get_figma_data_try svc fileKey nodeId depth) = Ok r ->
  exists t, r = text_result t.
Proof.
  unfold get_figma_data_try.
  destruct (outcome (fetch svc fileKey nodeId depth)) as [file|e];
    [|discriminate].
  destruct (get_property "nodes" file) as [[| | | |ns|]|]; simpl;
    try discriminate.
  intros [= <-]. eexists. reflexivity.
Qed.

Lemma download_figma_images_try_result (svc : FigmaService) (fileKey : string)
    (nodes : list ImageNode) (localPath : string) (r : CallToolResult) :
  snd (download_figma_images_try svc fileKey nodes localPath) = Ok r ->
  exists t, r = text_result t.
Proof.
  unfold download_figma_images_try. simpl.
  destruct (downloads svc fileKey nodes localPath) as [ds|e]; simpl;
    [|discriminate].
  intros [= <-]. eexists. reflexivity.
Qed.

Lemma handled_shape (body : list LogEntry * Result CallToolResult)
    (label : list Piece) (prefix : string) :
  (forall r, snd body = Ok r -> exists t, r = text_result t) ->
  exists flag t,
    returned
      (try_catch_logged body
         (fun error =>
            ([LogError label error],
             Ok (error_result (prefix +:+ ToString_exn error)))))
    = Ok {| isError := flag; content := [{| type := "text"; text := t |}] |} /\
    (flag = Some true <-> exists e, snd body = Throw e) /\
    (flag = None <-> exists r, snd body = Ok r).
Proof.
  destruct body as [logs [r|e]]; simpl; intros H.
  - destruct (H r eq_refl) as [t ->]. exists None, t.
    split; [reflexivity|]. split; split; try discriminate; eauto.
    intros [e He]. discriminate.
  - exists (Some true), (prefix +:+ ToString_exn e).
    split; [reflexivity|]. split; split; try discriminate; eauto.
    intros [r Hr]. discriminate.
Qed.

(** X6: whatever the service does, each handler returns an envelope with
    exactly one content block, of type text; the flag [isError] is either
    absent or true, never false; it is true exactly when the [try] block
    threw and absent exactly when the block completed. *)
Theorem handlers_return_one_text_block (svc : FigmaService) (fileKey : string)
    (nodeId : option string) (depth : option number)
    (nodes : list ImageNode) (localPath : string) :
  (exists flag t,
     returned (get_figma_data svc fileKey nodeId depth)
     = Ok {| isError := flag; content := [{| type := "text"; text := t |}] |} /\
     (flag = Some true <->
      exists e, snd (get_figma_data_try svc fileKey nodeId depth) = Throw e) /\
     (flag = None <->
      exists r, snd (get_figma_data_try svc fileKey nodeId depth) = Ok r)) /\
  (exists flag t,
     returned (download_figma_images svc fileKey nodes localPath)
     = Ok {| isError := flag; content := [{| type := "text"; text := t |}] |} /\
     (flag = Some true <->
      exists e,
        snd (download_figma_images_try svc fileKey nodes localPath) = Throw e) /\
     (flag = None <->
      exists r,
        snd (download_figma_images_try svc fileKey nodes localPath) = Ok r)).
Proof.
  split.
  - apply handled_shape. apply get_figma_data_try_result.
  - apply handled_shape. apply download_figma_images_try_result.
Qed.

(** X7: which of the two fetch operations [get_figma_data] uses.  An empty
    [nodeId] is treated as a missing one: the call does the same and logs the
    same.  Without a node id only [getFile] matters, with one only [getNode]:
    two services that agree on the operation used give the same result. *)
Theorem get_figma_data_fetch_choice (svc svc' : FigmaService)
    (fileKey : string) (depth : option number) :
  get_figma_data svc fileKey (Some "") depth
  = get_figma_data svc fileKey None depth /\
  (getFile svc fileKey depth = getFile svc' fileKey depth ->
   get_figma_data svc fileKey None depth
   = get_figma_data svc' fileKey None depth) /\
  (forall id, id <> "" ->
     getNode svc fileKey id depth = getNode svc' fileKey id depth ->
     get_figma_data svc fileKey (Some id) depth
     = get_figma_data svc' fileKey (Some id) depth).
Proof.
  split; [reflexivity|]. split.
  - intros H. unfold get_figma_data, get_figma_data_try, fetch.
    rewrite H. reflexivity.
  - intros id Hid H. unfold get_figma_data, get_figma_data_try, fetch.
    destruct (String.eqb_spec id "") as [E|_]; [contradiction|].
    unfold truthy_string.
    destruct (String.eqb_spec id "") as [E|_]; [contradiction|]. simpl.
    rewrite H. reflexivity.
Qed.

Lemma get_figma_data_fetch_choice_witness :
  get_figma_data saving_service "abc123" None None
  = get_figma_data failing_service "abc123" None None /\
  get_figma_data saving_service "abc123" (Some "1:2") None
  = get_figma_data half_rejecting_service "abc123" (Some "1:2") None.
Proof.
  destruct (get_figma_data_fetch_choice saving_service failing_service
              "abc123" None) as [_ [H _]].
  destruct (get_figma_data_fetch_choice saving_service half_rejecting_service
              "abc123" None) as [_ [_ H']].
  split; [apply H; reflexivity|apply H'; [discriminate|reflexivity]].
Defined.

Lemma downloads_render_rejected (svc : FigmaService) (fileKey : string)
    (nodes : list ImageNode) (localPath : string) (f : list Value) (e : Exn) :
  outcome (getImageFills svc fileKey (imageFills nodes) localPath) = Ok f ->
  outcome (getImages svc fileKey (renderRequests nodes) localPath) = Throw e ->
  downloads svc fileKey nodes localPath = Throw e.
Proof. intros Hf Hr. unfold downloads, all2. rewrite Hf, Hr. reflexivity. Qed.

Lemma downloads_fill_rejected (svc : FigmaService) (fileKey : string)
    (nodes : list ImageNode) (localPath : string) (r : list Value) (e : Exn) :
  outcome (getImageFills svc fileKey (imageFills nodes) localPath) = Throw e ->
  outcome (getImages svc fileKey (renderRequests nodes) localPath) = Ok r ->
  downloads svc fileKey nodes localPath = Throw e.
Proof. intros Hf Hr. unfold downloads, all2. rewrite Hf, Hr. reflexivity. Qed.

Lemma download_figma_images_rejected (svc : FigmaService) (fileKey : string)
    (nodes : list ImageNode) (localPath : string) (e : Exn) :
  downloads svc fileKey nodes localPath = Throw e ->
  download_figma_images svc fileKey nodes localPath =
    {| logged := [LogError [Text "Error downloading images from file ";
                            Text fileKey; Text ":"] e];
       returned := Ok (error_result ("Error downloading images: "
                                     +:+ ToString_exn e)) |}.
Proof.
  intros H. unfold download_figma_images, download_figma_images_try.
  rewrite H. reflexivity.
Qed.

(** X8: one rejected batch fails the whole request.  When one of the two
    service calls is rejected and the other resolves, the results of the one
    that resolved are dropped and the handler returns the error envelope of
    the rejection.  Both calls are always made: also when no requested node
    needs a rendering (or none an image fill), the call with the empty batch
    is made and its rejection fails the request. *)
Theorem rejected_batch_fails_the_request (svc : FigmaService)
    (fileKey : string) (nodes : list ImageNode) (localPath : string)
    (saved : list Value) (e : Exn) :
  (outcome (getImageFills svc fileKey (imageFills nodes) localPath) = Ok saved /\
   outcome (getImages svc fileKey (renderRequests nodes) localPath) = Throw e) \/
  (outcome (getImageFills svc fileKey (imageFills nodes) localPath) = Throw e /\
   outcome (getImages svc fileKey (renderRequests nodes) localPath) = Ok saved) ->
  returned (download_figma_images svc fileKey nodes localPath)
  = Ok {| isError := Some true;
          content := [{| type := "text";
                         text := "Error downloading images: "
                                 +:+ ToString_exn e |}] |}.
Proof.
  intros [[Hf Hr]|[Hf Hr]];
    rewrite (download_figma_images_rejected svc fileKey nodes localPath e);
    try reflexivity.
  - eapply downloads_render_rejected; eassumption.
  - eapply downloads_fill_rejected; eassumption.
Qed.

Lemma rejected_batch_fails_the_request_witness :
  renderRequests [photo] = [] /\
  returned (download_figma_images half_rejecting_service "abc123" [photo]
              "/tmp/out")
  = Ok {| isError := Some true;
          content := [{| type := "text";
                         text := "Error downloading images: Error: Failed to make request to Figma API: Too Many Requests" |}] |}.
Proof.
  split; [reflexivity|].
  apply (rejected_batch_fails_the_request half_rejecting_service "abc123"
           [photo] "/tmp/out" [VString "/tmp/out/photo.png"]
           (Error "Failed to make request to Figma API: Too Many Requests")).
  left. split; reflexivity.
Defined.

(** X9: the text the handler splices for the nodes, each node printed on
    its own and the texts joined by commas between brackets, is valid JSON
    and parses to the array of the nodes; for no nodes it is the text of the
    empty array, and for one node or more it is not the text that
    [JSON.stringify] gives for the array, which starts a new line after the
    bracket. *)
Theorem nodesJson_parses_to_the_nodes (nodes : list json) :
  Forall well_formed nodes ->
  parse (nodesJson nodes) = Some (JArray nodes) /\
  (nodes = [] -> nodesJson nodes = "[]") /\
  (nodes <> [] -> nodesJson nodes <> stringify (JArray nodes)).
Proof.
  intros Hwf. split; [|split].
  - unfold parse.
    pose proof (JsonProps.parse_value_nodesJson nodes
                  (S (String.length (nodesJson nodes))) "" "" Hwf) as H.
    change ("" +:+ nodesJson nodes +:+ "") with (nodesJson nodes +:+ "") in H.
    rewrite StringFacts.app_nil_r in H.
    rewrite H; [reflexivity| |reflexivity].
    pose proof (JsonProps.nodesJson_length nodes Hwf). lia.
  - intros ->. reflexivity.
  - intros Hne. destruct nodes as [|x l]; [contradiction|].
    inversion Hwf as [|? ? Hx _]; subst.
    destruct (JsonProps.serialized_head "" x Hx) as [c [r [Hc [Hws _]]]].
    unfold nodesJson, stringify.
    change (map (fun v => SerializeJSONProperty "" v) (x :: l))
      with (SerializeJSONProperty "" x :: map (SerializeJSONProperty "") l).
    change (SerializeJSONProperty "" (JArray (x :: l)))
      with (String "[" (String "010"
              (("" +:+ gap)
               +:+ String.concat ("," +:+ newline +:+ ("" +:+ gap))
                     (map (SerializeJSONProperty ("" +:+ gap)) (x :: l))
               +:+ newline +:+ "" +:+ "]"))).
    destruct l as [|y l]; simpl String.concat; rewrite Hc; simpl;
      intros [= E _]; subst c; discriminate Hws.
Qed.

Lemma nodesJson_parses_to_the_nodes_witness :
  parse (nodesJson [JObject [("id", JString "4:5"); ("visible", JBool false)];
                    JNumber "-1.5e+21"; JArray []])
  = Some (JArray [JObject [("id", JString "4:5"); ("visible", JBool false)];
                  JNumber "-1.5e+21"; JArray []]).
Proof.
  apply (nodesJson_parses_to_the_nodes
           [JObject [("id", JString "4:5"); ("visible", JBool false)];
            JNumber "-1.5e+21"; JArray []]).
  apply JsonProps.well_formed_JArray. apply JsonProps.well_formedb_sound.
  reflexivity.
Defined.

(** X11: when both service calls resolve with one result for each request
    and no download failed, the handler returns the success envelope: its
    text names the number of requested nodes and lists the results, those of
    the image fills first, separated by a comma and a space. *)
Theorem all_downloads_succeeded (svc : FigmaService) (fileKey : string)
    (nodes : list ImageNode) (localPath : string) (f r : list Value) :
  one_result_per_request svc ->
  outcome (getImageFills svc fileKey (imageFills nodes) localPath) = Ok f ->
  outcome (getImages svc fileKey (renderRequests nodes) localPath) = Ok r ->
  failures (f ++ r) = 0 ->
  returned (download_figma_images svc fileKey nodes localPath)
  = Ok {| isError := None;
          content := [{| type := "text";
                         text := "Success, " +:+ length_to_string (length nodes)
                                 +:+ " images downloaded: "
                                 +:+ join ", " (f ++ r) |}] |}.
Proof.
  intros Hs Hf Hr _.
  rewrite (DownloadProps.download_figma_images_resolved svc fileKey nodes
             localPath (f ++ r)
             (DownloadProps.downloads_joined _ _ _ _ _ _ Hf Hr)).
  destruct (Hs fileKey localPath) as [H1 H2].
  rewrite length_app, (H1 _ _ Hf), (H2 _ _ Hr), DownloadProps.batches_length.
  reflexivity.
Qed.

Lemma all_downloads_succeeded_witness :
  returned (download_figma_images saving_service "abc123" [icon; photo; banner]
              "/tmp/out")
  = Ok {| isError := None;
          content := [{| type := "text";
                         text := "Success, 3 images downloaded: /tmp/out/photo.png, /tmp/out/icon.svg, /tmp/out/banner.png" |}] |}.
Proof.
  apply (all_downloads_succeeded saving_service "abc123" [icon; photo; banner]
           "/tmp/out" [VString "/tmp/out/photo.png"]
           [VString "/tmp/out/icon.svg"; VString "/tmp/out/banner.png"]).
  - apply DownloadProps.saving_service_one_result.
  - reflexivity.
  - reflexivity.
  - reflexivity.
Defined.

End HandlerMore.
